(** * Agentic web scraping over a LangGraph state graph

    A shallow embedding of [scrape_the_web_agentically.py]: the state
    schema with its reducers, the five node functions, the routing
    function and the graph that [create_graph] declares, followed by the
    properties of the workflow.

    Conventions of the embedding.
    - Python [str] is [string]; a character is a code point below 256.
    - Python [int] is [Z]; [len] is [Z.of_nat (length _)].
    - [Dict[str, Any]] is an association list in insertion order, which
      is the order Python's [dict.values()] and [str] walk.
    - [raise]/[try]/[except] is the error type [result].
    - Log output is left out, except in [scrape_manager], whose only
      effect is its log. *)

From Stdlib Require Import String Ascii List ZArith Bool Lia DecimalString QArith.
Import ListNotations.
Local Open Scope string_scope.
Local Open Scope Z_scope.

Set Warnings "-register-all".

(** ** Python strings *)

Module Py.

(** [needle in hay] for two strings. *)
Fixpoint contains (needle hay : string) : bool :=
  String.prefix needle hay ||
  match hay with
  | EmptyString => false
  | String _ rest => contains needle rest
  end.

Fixpoint map_chars (f : ascii -> ascii) (s : string) : string :=
  match s with
  | EmptyString => EmptyString
  | String c rest => String (f c) (map_chars f rest)
  end.

(** [str.lower] on one code point below 256: the letters A-Z and the
    Latin-1 capitals U+00C0-U+00DE (the sign U+00D7 apart) move up by
    32; every other code point is its own lower case. *)
Definition lower_char (c : ascii) : ascii :=
  let n := N_of_ascii c in
  if ((65 <=? n) && (n <=? 90) ||
      (192 <=? n) && (n <=? 222) && negb (n =? 215))%N
  then ascii_of_N (n + 32) else c.

Definition lower (s : string) : string := map_chars lower_char s.

Definition squote : ascii := ascii_of_N 39.
Definition dquote : ascii := ascii_of_N 34.
Definition backslash : ascii := ascii_of_N 92.

Fixpoint mem_char (c : ascii) (s : string) : bool :=
  match s with
  | EmptyString => false
  | String d rest => Ascii.eqb c d || mem_char c rest
  end.

Definition hex_digit (n : N) : ascii :=
  (if n <? 10 then ascii_of_N (48 + n) else ascii_of_N (87 + n))%N.

(** The [\xNN] escape of [repr]. *)
Definition hex_escape (c : ascii) : string :=
  let n := N_of_ascii c in
  "\x" ++ String (hex_digit (n / 16)) (String (hex_digit (n mod 16)) EmptyString).

(** Code points below 256 that [repr] copies unescaped: printable
    ASCII, and Latin-1 from U+00A1 on, the soft hyphen apart. *)
Definition printable (c : ascii) : bool :=
  let n := N_of_ascii c in
  ((32 <=? n) && (n <? 127) || (161 <=? n) && negb (n =? 173))%N.

Definition repr_char (quote c : ascii) : string :=
  if Ascii.eqb c quote || Ascii.eqb c backslash then String backslash (String c EmptyString)
  else if Ascii.eqb c (ascii_of_N 9) then "\t"
  else if Ascii.eqb c (ascii_of_N 10) then "\n"
  else if Ascii.eqb c (ascii_of_N 13) then "\r"
  else if printable c then String c EmptyString
  else hex_escape c.

Fixpoint repr_chars (quote : ascii) (s : string) : string :=
  match s with
  | EmptyString => EmptyString
  | String c rest => repr_char quote c ++ repr_chars quote rest
  end.

(** [repr] of a [str]: single quotes, unless the text has a single
    quote and no double quote. *)
Definition repr_str (s : string) : string :=
  let quote : ascii :=
    if mem_char squote s && negb (mem_char dquote s) then dquote else squote in
  String quote (repr_chars quote s ++ String quote EmptyString).

Definition repr_int (z : Z) : string := NilZero.string_of_int (Z.to_int z).

Fixpoint join (sep : string) (parts : list string) : string :=
  match parts with
  | [] => EmptyString
  | [p] => p
  | p :: rest => p ++ sep ++ join sep rest
  end.

(** The values an [Any] slot holds here: what a JSON answer decodes
    to, floats apart. *)
Inductive value : Type :=
| VNone
| VBool (b : bool)
| VInt (z : Z)
| VStr (s : string)
| VList (items : list value)
| VDict (items : list (string * value)).

Definition dict : Type := list (string * value).

Fixpoint repr (v : value) : string :=
  match v with
  | VNone => "None"
  | VBool true => "True"
  | VBool false => "False"
  | VInt z => repr_int z
  | VStr s => repr_str s
  | VList items => "[" ++ join ", " (map repr items) ++ "]"
  | VDict items =>
      "{" ++ join ", " (map (fun kv => repr_str (fst kv) ++ ": " ++ repr (snd kv)) items) ++ "}"
  end.

(** [str(v)]: a [str] is itself, anything else is its [repr]. *)
Definition str (v : value) : string :=
  match v with
  | VStr s => s
  | _ => repr v
  end.

(** [d.values()], and [str] of that view. *)
Definition values (d : dict) : list value := map snd d.

Definition str_dict_values (vs : list value) : string :=
  "dict_values([" ++ join ", " (map repr vs) ++ "])".

(** Exceptions.  [except Exception] catches the instances of
    [Exception], which is every error; what derives from
    [BaseException] only ([KeyboardInterrupt], [SystemExit]) asks the
    process to stop and passes through.  [message] is [str(e)]. *)
Inductive exn : Type :=
| Error (class message : string)
| Exit (class : string).

Inductive result (A : Type) : Type :=
| Ok (a : A)
| Raise (e : exn).
Arguments Ok {A} a.
Arguments Raise {A} e.

Definition bind {A B} (m : result A) (k : A -> result B) : result B :=
  match m with
  | Ok a => k a
  | Raise e => Raise e
  end.

(** [try: body  except Exception as e: handler e]. *)
Definition try_except {A} (body : result A) (handler : string -> result A) : result A :=
  match body with
  | Raise (Error _ message) => handler message
  | other => other
  end.

End Py.

Import Py.

Notation "x <- m ;; k" := (Py.bind m (fun x => k))
  (at level 61, m at next level, right associativity).

(** ** Configuration and the extraction service *)

(** [Settings]: the one secret the run needs. *)
Record Settings : Type := { openai_api_key : string }.

(** The [config] argument of a node: [config["configurable"]["settings"]]. *)
Record Configurable : Type := { settings : Settings }.
Record RunnableConfig : Type := { configurable : Configurable }.

(** [graph_config] as [scraper] builds it.  The literal [0.1] is kept
    as the rational it denotes; nothing computes with it. *)
Record LlmConfig : Type := { api_key : string; model : string; temperature : Q }.
Record GraphConfig : Type := { llm : LlmConfig; verbose : bool; headless : bool }.

(** [SmartScraperGraph(prompt=..., source=..., config=...).run()]: the
    library call, from its three arguments to what it returns or
    raises. *)
Definition SmartScraperGraph : Type := string -> string -> GraphConfig -> result value.

(** ** State schema *)

(** [InputState]: [urls] is a [str] or a list of [str]; either key may
    be missing from the dict. *)
Inductive urls_arg : Type :=
| OneUrl (u : string)
| UrlList (us : list string).

Module InputState.
Record t : Type := { urls : option urls_arg; keyword : option string }.
End InputState.

(** [OverallState], every key set (as it is once [initialize_state] has
    run).  [is_information_found] is declared [Optional[bool]], but is
    [False] at the start and only ever combined with a [bool] by [or_]:
    it is a [bool]. *)
Record OverallState : Type := {
  initial_urls : list string;
  current_url_index : Z;
  total_urls : Z;
  urls_to_scrape : list string;
  extracted_info : option dict;
  extracted_from_url : option string;
  is_information_found : bool;
  keyword : string
}.

(** What a node returns: a dict with some of the keys of the schema.
    [None] is a missing key; for the two optional fields, [Some None] is
    the key set to Python's [None]. *)
Module Update.
Record t : Type := {
  initial_urls : option (list string);
  current_url_index : option Z;
  total_urls : option Z;
  urls_to_scrape : option (list string);
  extracted_info : option (option dict);
  extracted_from_url : option (option string);
  is_information_found : option bool;
  keyword : option string
}.

Definition empty : t :=
  {| initial_urls := None; current_url_index := None; total_urls := None;
     urls_to_scrape := None; extracted_info := None; extracted_from_url := None;
     is_information_found := None; keyword := None |}.
End Update.

(** A node that returns the state dict itself writes every key. *)
Definition whole_state (s : OverallState) : Update.t :=
  {| Update.initial_urls := Some (initial_urls s);
     Update.current_url_index := Some (current_url_index s);
     Update.total_urls := Some (total_urls s);
     Update.urls_to_scrape := Some (urls_to_scrape s);
     Update.extracted_info := Some (extracted_info s);
     Update.extracted_from_url := Some (extracted_from_url s);
     Update.is_information_found := Some (is_information_found s);
     Update.keyword := Some (keyword s) |}.

(** *** Reducers *)

Definition first_non_null {A : Type} (a b : option A) : option A :=
  match a with
  | Some _ => a
  | None => b
  end.

(** [operator.or_] on two [bool]s. *)
Definition or_ (a b : bool) : bool := a || b.

(** A field without annotation keeps the last value written. *)
Definition last_value {A : Type} (old : A) (written : option A) : A :=
  match written with
  | Some v => v
  | None => old
  end.

(** A field annotated with a reducer folds the written value into the
    old one. *)
Definition reduce {A : Type} (f : A -> A -> A) (old : A) (written : option A) : A :=
  match written with
  | Some v => f old v
  | None => old
  end.

(** Modelled from the spec: the Executor's merge of a node's output into
    the state (the LangGraph runtime, which is not part of this
    repository), with the reducer of each field as [OverallState]
    annotates it. *)
Definition apply_update (s : OverallState) (u : Update.t) : OverallState :=
  {| initial_urls := last_value (initial_urls s) (Update.initial_urls u);
     current_url_index := last_value (current_url_index s) (Update.current_url_index u);
     total_urls := last_value (total_urls s) (Update.total_urls u);
     urls_to_scrape := last_value (urls_to_scrape s) (Update.urls_to_scrape u);
     extracted_info := reduce first_non_null (extracted_info s) (Update.extracted_info u);
     extracted_from_url := reduce first_non_null (extracted_from_url s) (Update.extracted_from_url u);
     is_information_found := reduce or_ (is_information_found s) (Update.is_information_found u);
     keyword := last_value (keyword s) (Update.keyword u) |}.

(** ** Truth values of Python objects *)

Definition str_truthy (s : string) : bool :=
  match s with
  | EmptyString => false
  | String _ _ => true
  end.

Definition list_truthy {A : Type} (l : list A) : bool :=
  match l with
  | [] => false
  | _ :: _ => true
  end.

Definition urls_truthy (u : urls_arg) : bool :=
  match u with
  | OneUrl s => str_truthy s
  | UrlList us => list_truthy us
  end.

Definition len {A : Type} (l : list A) : Z := Z.of_nat (length l).

(** ** Nodes *)

Definition default_url : string := "https://python.langchain.com".
Definition default_keyword : string := "How to track token usage for LLMs".

Definition initialize_state (state : InputState.t) (config : RunnableConfig) : OverallState :=
  let urls := match InputState.urls state with Some u => u | None => UrlList [] end in
  let keyword := match InputState.keyword state with Some k => k | None => EmptyString end in
  let urls := if urls_truthy urls then urls else UrlList [default_url] in
  let keyword := if str_truthy keyword then keyword else default_keyword in
  let initial_urls := match urls with OneUrl u => [u] | UrlList us => us end in
  {| initial_urls := initial_urls;
     current_url_index := 0;
     total_urls := len initial_urls;
     urls_to_scrape := initial_urls;
     keyword := keyword;
     extracted_info := None;
     extracted_from_url := None;
     is_information_found := false |}.

(** What [scrape_manager] logs.  The progress figure is a float in the
    source, printed with two decimals; the log keeps the exact ratio. *)
Inductive log_record : Type :=
| LogExecuting (node : string)
| LogNoMoreUrls
| LogProgress (remaining total : Z) (progress : Q).

Definition scrape_manager (state : OverallState) : list log_record * OverallState :=
  let urls_to_scrape := urls_to_scrape state in
  let total_urls := total_urls state in
  if negb (list_truthy urls_to_scrape) then
    ([LogExecuting "scrape_manager"; LogNoMoreUrls], state)
  else
    let remaining := len urls_to_scrape in
    let processed := total_urls - remaining in
    let progress :=
      if 0 <? total_urls
      then (inject_Z processed / inject_Z total_urls * inject_Z 100)%Q
      else 0%Q in
    ([LogExecuting "scrape_manager"; LogProgress remaining total_urls progress], state).

(** [Send(node, arg)] with the seed dict [{"url": ..., "keyword": ...}]. *)
Module Seed.
Record t : Type := { url : string; keyword : string }.
End Seed.

Record Send : Type := { node : string; arg : Seed.t }.

Definition send_to_scraper (state : OverallState) : list Send :=
  let urls_to_scrape := urls_to_scrape state in
  if negb (list_truthy urls_to_scrape) then []
  else
    map (fun url => {| node := "scraper";
                       arg := {| Seed.url := url; Seed.keyword := keyword state |} |})
        urls_to_scrape.

Definition prompt_for (keyword : string) : string :=
  "Extract information related to '" ++ keyword ++
  "'. Summarize the key points concisely. " ++
  "If the keyword is not mentioned or relevant, state that clearly." ++
  "Add full source url without modification where you found keyword.".

Definition graph_config_for (api_key : string) : GraphConfig :=
  {| llm := {| api_key := api_key; model := "gpt-4o"; temperature := (1 # 10)%Q |};
     verbose := true;
     headless := true |}.

(** The test of lines 204-207 on the record the extractor returned. *)
Definition summary_of (result : dict) : string :=
  lower (str_dict_values (values result)).

Definition relevant (keyword : string) (result : dict) : bool :=
  let summary := summary_of result in
  contains (lower keyword) summary &&
  negb (contains "not mentioned" summary) &&
  negb (contains "not relevant" summary).

Definition scraper (run : SmartScraperGraph) (state : OverallState) (config : RunnableConfig)
  : result Update.t :=
  match urls_to_scrape state with
  | [] =>
      Ok {| Update.extracted_info := Some None;
            Update.extracted_from_url := Some None;
            Update.is_information_found := Some false;
            Update.urls_to_scrape := Some [];
            Update.initial_urls := None; Update.current_url_index := None;
            Update.total_urls := None; Update.keyword := None |}
  | url :: remaining_urls =>
      let keyword := keyword state in
      let api_key := openai_api_key (settings (configurable config)) in
      if negb (str_truthy api_key) then
        Ok {| Update.extracted_info := Some None;
              Update.extracted_from_url := Some (Some url);
              Update.is_information_found := Some false;
              Update.urls_to_scrape := None;
              Update.initial_urls := None; Update.current_url_index := None;
              Update.total_urls := None; Update.keyword := None |}
      else
        let prompt := prompt_for keyword in
        let graph_config := graph_config_for api_key in
        outcome <-
          try_except
            (result <- run prompt url graph_config ;;
             match result with
             | VDict extracted_data => Ok (extracted_data, relevant keyword extracted_data)
             | other => Ok ([("raw_output", VStr (str other))], false)
             end)
            (fun message => Ok ([("error", VStr message)], false)) ;;
        Ok {| Update.extracted_info := Some (Some (fst outcome));
              Update.extracted_from_url := Some (Some url);
              Update.is_information_found := Some (snd outcome);
              Update.urls_to_scrape := Some remaining_urls;
              Update.initial_urls := None; Update.current_url_index := None;
              Update.total_urls := None; Update.keyword := None |}
  end.

Definition evaluate (state : OverallState) : Update.t :=
  if is_information_found state
  then {| Update.is_information_found := Some true;
          Update.initial_urls := None; Update.current_url_index := None;
          Update.total_urls := None; Update.urls_to_scrape := None;
          Update.extracted_info := None; Update.extracted_from_url := None;
          Update.keyword := None |}
  else {| Update.is_information_found := Some false;
          Update.initial_urls := None; Update.current_url_index := None;
          Update.total_urls := None; Update.urls_to_scrape := None;
          Update.extracted_info := None; Update.extracted_from_url := None;
          Update.keyword := None |}.

Definition should_continue_scraping (state : OverallState) : string :=
  if is_information_found state then "end_process"
  else if current_url_index state <? total_urls state then "continue_scraping"
  else "end_process".

(** ** The graph of [create_graph] *)

(** The nodes a run can be at once the state exists, and the end
    marker. *)
Module Node.
Inductive t : Type := scrape_manager | scraper | evaluate | END.

Definition eqb (a b : t) : bool :=
  match a, b with
  | scrape_manager, scrape_manager | scraper, scraper
  | evaluate, evaluate | END, END => true
  | _, _ => false
  end.
End Node.

(** What the builder collects: [add_edge] pairs, and for
    [add_conditional_edges] the routing function with its path map. *)
Definition path_map : Type := list (string * Node.t).

(** The keys of [OverallState], which are the channels of a graph built
    by [StateGraph(OverallState, ...)]. *)
Definition OverallState_keys : list string :=
  ["initial_urls"; "current_url_index"; "total_urls"; "urls_to_scrape";
   "extracted_info"; "extracted_from_url"; "is_information_found"; "keyword"].

Record StateGraph : Type := {
  state_schema : list string;
  edges : list (Node.t * Node.t);
  conditional_edges : list (Node.t * ((OverallState -> string) * path_map));
  checkpointer : option string;
  interrupt_after : list Node.t
}.

(** The [lambda] given for the edge out of [scrape_manager]. *)
Definition after_scrape_manager (state : OverallState) : string :=
  if list_truthy (urls_to_scrape state) then "scraper" else "evaluate".

(** The edges into and out of [initialize_state] are followed by
    [start] below. *)
Definition create_graph (settings : Settings) : StateGraph :=
  {| state_schema := OverallState_keys;
     edges := [(Node.scraper, Node.evaluate)];
     conditional_edges :=
       [(Node.scrape_manager,
         (after_scrape_manager,
          [("scraper", Node.scraper); ("evaluate", Node.evaluate)]));
        (Node.evaluate,
         (should_continue_scraping,
          [("continue_scraping", Node.scrape_manager); ("end_process", Node.END)]))];
     checkpointer := None;
     interrupt_after := [Node.evaluate] |}.

Fixpoint lookup (label : string) (paths : path_map) : result Node.t :=
  match paths with
  | [] => Raise (Error "KeyError" label)
  | (l, n) :: rest => if String.eqb label l then Ok n else lookup label rest
  end.

Fixpoint out_of {A : Type} (n : Node.t) (table : list (Node.t * A)) : option A :=
  match table with
  | [] => None
  | (m, a) :: rest => if Node.eqb n m then Some a else out_of n rest
  end.

(** Modelled from the spec: how the Executor (the LangGraph runtime,
    which is not part of this repository) picks the node after [n]: the
    plain edge if there is one, else the target the path map gives for
    the label the routing function returns on the merged state. *)
Definition next_node (graph : StateGraph) (n : Node.t) (state : OverallState)
  : result Node.t :=
  match out_of n (edges graph) with
  | Some target => Ok target
  | None =>
      match out_of n (conditional_edges graph) with
      | Some (route, paths) => lookup (route state) paths
      | None => Ok Node.END
      end
  end.

(** The function registered for each node by [add_node], as the update
    it hands to the Executor. *)
Definition run_node (run : SmartScraperGraph) (config : RunnableConfig)
  (n : Node.t) (state : OverallState) : result Update.t :=
  match n with
  | Node.scrape_manager => Ok (whole_state (snd (scrape_manager state)))
  | Node.scraper => scraper run state config
  | Node.evaluate => Ok (evaluate state)
  | Node.END => Ok Update.empty
  end.

(** Modelled from the spec: one turn of the Executor.  It runs the node
    at hand on the current state, merges what the node returns, and
    moves to the next node; at [END] nothing is left to run. *)
Definition step (run : SmartScraperGraph) (config : RunnableConfig)
  (at_ : Node.t * OverallState) : result (Node.t * OverallState) :=
  let (n, state) := at_ in
  match n with
  | Node.END => Ok (Node.END, state)
  | _ =>
      update <- run_node run config n state ;;
      let state' := apply_update state update in
      next <- next_node (create_graph (settings (configurable config))) n state' ;;
      Ok (next, state')
  end.

(** What [initialize_state] gets to see of the caller's input: the
    runtime writes the input to the channels of the graph, and a key
    that is no channel is dropped.  [urls] is no key of [OverallState],
    so only the keyword comes through. *)
Definition has_channel (graph : StateGraph) (key : string) : bool :=
  existsb (String.eqb key) (state_schema graph).

Definition state_from_input (graph : StateGraph) (input : InputState.t) : InputState.t :=
  {| InputState.urls :=
       if has_channel graph "urls" then InputState.urls input else None;
     InputState.keyword :=
       if has_channel graph "keyword" then InputState.keyword input else None |}.

(** The state the first node of the graph makes. *)
Definition initial_state (input : InputState.t) (config : RunnableConfig) : OverallState :=
  initialize_state
    (state_from_input (create_graph (settings (configurable config))) input) config.

(** The edges [START -> initialize_state -> scrape_manager]: the first
    node builds the state from what came through of the input, and
    [scrape_manager] is next. *)
Definition start (input : InputState.t) (config : RunnableConfig) : Node.t * OverallState :=
  (Node.scrape_manager, initial_state input config).

(** [interrupt_after]: the run is stopped once one of these nodes has
    run. *)
Definition interrupts_after (graph : StateGraph) (n : Node.t) : bool :=
  existsb (Node.eqb n) (interrupt_after graph).

(** One call of [graph.stream], turn by turn.  After a node of
    [interrupt_after] the stream ends, with the node that would be next
    left in the result; the graph has no checkpointer, so nothing takes
    the run up again.  A run is over after three turns at most, far from
    the limit the runtime puts on the number of turns. *)
Fixpoint steps (run : SmartScraperGraph) (config : RunnableConfig) (fuel : nat)
  (at_ : Node.t * OverallState) : result (Node.t * OverallState) :=
  match fuel with
  | O => Ok at_
  | S fuel' =>
      at' <- step run config at_ ;;
      if interrupts_after (create_graph (settings (configurable config))) (fst at_)
      then Ok at'
      else steps run config fuel' at'
  end.

(** The run after [fuel] turns of the Executor, or where it stopped if
    that was earlier. *)
Definition run_graph (run : SmartScraperGraph) (config : RunnableConfig)
  (input : InputState.t) (fuel : nat) : result (Node.t * OverallState) :=
  steps run config fuel (start input config).

Definition reached_end (r : result (Node.t * OverallState)) : bool :=
  match r with
  | Ok (Node.END, _) => true
  | _ => false
  end.

(** ** Sample inputs *)

Definition sample_settings : Settings := {| openai_api_key := "sk-test" |}.

Definition sample_config : RunnableConfig :=
  {| configurable := {| settings := sample_settings |} |}.

Definition keyless_config : RunnableConfig :=
  {| configurable := {| settings := {| openai_api_key := EmptyString |} |} |}.

(** An extractor that fails on every page. *)
Definition failing_extractor : SmartScraperGraph :=
  fun _ _ _ => Raise (Error "ConnectionError" "connection refused").

(** An extractor that answers with one summary, whatever the page. *)
Definition constant_extractor (answer : dict) : SmartScraperGraph :=
  fun _ _ _ => Ok (VDict answer).

Definition sample_input : InputState.t :=
  {| InputState.urls := Some (UrlList ["a.example"; "b.example"]);
     InputState.keyword := Some "foo" |}.

Definition sample_state : OverallState := initialize_state sample_input sample_config.

(** ** Notions and sample data used in the statements *)

(** [needle] occurs in [hay]. *)
Definition occurs_in (needle hay : string) : Prop :=
  exists before after, hay = before ++ needle ++ after.

Definition found_state : OverallState :=
  apply_update sample_state
    {| Update.is_information_found := Some true;
       Update.initial_urls := None; Update.current_url_index := None;
       Update.total_urls := None; Update.urls_to_scrape := None;
       Update.extracted_info := None; Update.extracted_from_url := None;
       Update.keyword := None |}.

Definition exhausted_state : OverallState :=
  apply_update sample_state
    {| Update.current_url_index := Some 2;
       Update.urls_to_scrape := Some [];
       Update.initial_urls := None; Update.total_urls := None;
       Update.extracted_info := None; Update.extracted_from_url := None;
       Update.is_information_found := None; Update.keyword := None |}.

(** The task [send_to_scraper] makes for one URL. *)
Definition task_for (state : OverallState) (url : string) : Send :=
  {| node := "scraper"; arg := {| Seed.url := url; Seed.keyword := keyword state |} |}.

Definition urls_missing (input : InputState.t) : Prop :=
  InputState.urls input = None \/
  InputState.urls input = Some (OneUrl EmptyString) \/
  InputState.urls input = Some (UrlList []).

Definition keyword_missing (input : InputState.t) : Prop :=
  InputState.keyword input = None \/ InputState.keyword input = Some EmptyString.

Definition empty_input : InputState.t :=
  {| InputState.urls := Some (UrlList []); InputState.keyword := Some EmptyString |}.

Definition bare_string_input : InputState.t :=
  {| InputState.urls := Some (OneUrl "a.example"); InputState.keyword := None |}.

Definition key_of (config : RunnableConfig) : string :=
  openai_api_key (settings (configurable config)).

(** What [scraper] writes once it has called the extractor. *)
Definition scraped (url : string) (remaining_urls : list string)
  (extracted_data : dict) (information_found : bool) : Update.t :=
  {| Update.extracted_info := Some (Some extracted_data);
     Update.extracted_from_url := Some (Some url);
     Update.is_information_found := Some information_found;
     Update.urls_to_scrape := Some remaining_urls;
     Update.initial_urls := None; Update.current_url_index := None;
     Update.total_urls := None; Update.keyword := None |}.

Definition relevant_answer : dict :=
  [("summary", VStr "Callbacks report Foo usage."); ("source", VStr "a.example")].

(** A record that has the keyword of [sample_state] as a key only, and
    a state whose keyword is a word of Python's wrapper text. *)
Definition keyword_in_key : dict := [("foo", VStr "bar")].

Definition values_state : OverallState :=
  initialize_state
    {| InputState.urls := Some (UrlList ["a.example"]);
       InputState.keyword := Some "values" |} sample_config.

(** Every call of [scraper] in a run for [kw] returns, and reports
    [is_information_found = False]. *)
Definition never_finds (run : SmartScraperGraph) (config : RunnableConfig) (kw : string) : Prop :=
  forall state, keyword state = kw ->
    exists update, scraper run state config = Ok update /\
                   Update.is_information_found update = Some false.

(** What stays true of the state along such a run: nothing advances
    [current_url_index], [total_urls] keeps its positive value, and the
    flag stays [False]. *)
Record stuck (kw : string) (state : OverallState) : Prop := {
  stuck_keyword : keyword state = kw;
  stuck_index : current_url_index state = 0;
  stuck_total : 0 < total_urls state;
  stuck_flag : is_information_found state = false
}.
Arguments stuck_keyword {kw state} _.
Arguments stuck_index {kw state} _.
Arguments stuck_total {kw state} _.
Arguments stuck_flag {kw state} _.

Definition one_url_input : InputState.t :=
  {| InputState.urls := Some (UrlList ["a.example"]); InputState.keyword := Some "foo" |}.

(** ** Notions used in the further properties *)

(** Characters that [repr] of a [str] copies as they are, whichever
    quote it picks. *)
Definition plain_char (c : ascii) : bool :=
  printable c &&
  negb (Ascii.eqb c squote) && negb (Ascii.eqb c dquote) && negb (Ascii.eqb c backslash).

Fixpoint all_chars (p : ascii -> bool) (s : string) : bool :=
  match s with
  | EmptyString => true
  | String c rest => p c && all_chars p rest
  end.

Definition plain (s : string) : bool := all_chars plain_char s.

(** A value holds the text [t], letter case apart: in a string, in an
    item of a list, in a value of a dict or in a key of a dict, at any
    depth. *)
Inductive holds_text (t : string) : value -> Prop :=
| holds_str (s : string) :
    occurs_in t (lower s) -> holds_text t (VStr s)
| holds_item (items : list value) (x : value) :
    In x items -> holds_text t x -> holds_text t (VList items)
| holds_value (items : list (string * value)) (k : string) (x : value) :
    In (k, x) items -> holds_text t x -> holds_text t (VDict items)
| holds_key (items : list (string * value)) (k : string) (x : value) :
    In (k, x) items -> occurs_in t (lower k) -> holds_text t (VDict items).

(** The value with every string in it, keys of nested dicts included,
    in lower case. *)
Fixpoint lower_value (v : value) : value :=
  match v with
  | VStr s => VStr (lower s)
  | VList items => VList (map lower_value items)
  | VDict items => VDict (map (fun kv => (lower (fst kv), lower_value (snd kv))) items)
  | other => other
  end.

Definition lower_values (record : dict) : dict :=
  map (fun kv => (fst kv, lower_value (snd kv))) record.

(** Some value of the record holds the text. *)
Definition record_holds (t : string) (record : dict) : Prop :=
  exists k x, In (k, x) record /\ holds_text t x.

(** The record under other keys. *)
Definition rename_keys (f : string -> string) (record : dict) : dict :=
  map (fun kv => (f (fst kv), snd kv)) record.

(** [urls_to_scrape] is what is left of [initial_urls]. *)
Definition queue_is_rest (state : OverallState) : Prop :=
  exists taken, initial_urls state = (taken ++ urls_to_scrape state)%list.

(** ** [main] *)

(** [main] turns a bare string into a list before it builds [inputs]. *)
Definition main_inputs (urls : urls_arg) (keyword : string) : InputState.t :=
  let url_list := match urls with OneUrl u => [u] | UrlList us => us end in
  {| InputState.urls := Some (UrlList url_list); InputState.keyword := Some keyword |}.

(** [extraction_tracker]. *)
Module Tracker.
Record t : Type := {
  found_information : bool;
  extracted_info : option dict;
  source_url : option string
}.

Definition initial : t :=
  {| found_information := false; extracted_info := None; source_url := None |}.
End Tracker.

(** The value of one item of a streamed event, as far as [main] looks at
    it: whether it is a dict, the schema keys it has, and whether it has
    the key ["__end__"]. *)
Inductive event_value : Type :=
| NotADict
| ADict (fields : Update.t) (has_end : bool).

Definition item : Type := (string * event_value)%type.
Definition event : Type := list item.

(** [d.get(key)] on an optional field: a missing key and a [None] value
    both give [None]. *)
Definition get {A : Type} (field : option (option A)) : option A :=
  match field with
  | Some (Some a) => Some a
  | _ => None
  end.

(** Lines 333-338: what one item does to the tracker. *)
Definition track (tracker : Tracker.t) (it : item) : Tracker.t :=
  match it with
  | (key, ADict fields _) =>
      if String.eqb key "scraper" then
        match Update.is_information_found fields with
        | Some true =>
            {| Tracker.found_information := true;
               Tracker.extracted_info := get (Update.extracted_info fields);
               Tracker.source_url := get (Update.extracted_from_url fields) |}
        | _ => tracker
        end
      else tracker
  | (_, NotADict) => tracker
  end.

(** The two variables the loops of [main] carry. *)
Record loop_state : Type := {
  tracker : Tracker.t;
  final_state : option (Update.t * bool)
}.

Definition loop_start : loop_state :=
  {| tracker := Tracker.initial; final_state := None |}.

(** The inner [for key, value in event.items()], with its [break]; the
    flag of the result tells whether it broke. *)
Fixpoint items_loop (items : event) (st : loop_state) : loop_state * bool :=
  match items with
  | [] => (st, false)
  | (key, value) :: rest =>
      let tracker' := track (tracker st) (key, value) in
      match value with
      | ADict fields true =>
          ({| tracker := tracker'; final_state := Some (fields, true) |}, true)
      | ADict fields false =>
          items_loop rest {| tracker := tracker'; final_state := Some (fields, false) |}
      | NotADict =>
          items_loop rest {| tracker := tracker'; final_state := final_state st |}
      end
  end.

Definition has_key {A : Type} (field : option A) : bool :=
  match field with Some _ => true | None => false end.

(** Truth value of the dict in [final_state]: it has some key. *)
Definition dict_truthy (d : Update.t * bool) : bool :=
  let (fields, has_end) := d in
  has_end ||
  has_key (Update.initial_urls fields) || has_key (Update.current_url_index fields) ||
  has_key (Update.total_urls fields) || has_key (Update.urls_to_scrape fields) ||
  has_key (Update.extracted_info fields) || has_key (Update.extracted_from_url fields) ||
  has_key (Update.is_information_found fields) || has_key (Update.keyword fields).

(** [final_state and '__end__' in final_state]. *)
Definition at_end (final_state : option (Update.t * bool)) : bool :=
  match final_state with
  | Some d => dict_truthy d && snd d
  | None => false
  end.

(** The outer [for event in graph.stream(...)], with its [break]. *)
Fixpoint events_loop (events : list event) (st : loop_state) : loop_state :=
  match events with
  | [] => st
  | ev :: rest =>
      let st' := fst (items_loop ev st) in
      if at_end (final_state st') then st' else events_loop rest st'
  end.

(** What [main] logs at the end. *)
Inductive report_line : Type :=
| FoundLine (keyword : string)
| SourceLine (source_url : option string)
| InfoLine (info : dict)
| NotFoundLine (keyword : string)
| LastAttemptLine (source_url : option string) (info : dict)
| NoFinalStateLine.

Definition info_truthy (info : option dict) : bool :=
  match info with
  | Some (_ :: _) => true
  | _ => false
  end.

Definition report (keyword : string) (st : loop_state) : list report_line :=
  let found := Tracker.found_information (tracker st) in
  let info := Tracker.extracted_info (tracker st) in
  let source_url := Tracker.source_url (tracker st) in
  match info with
  | Some (kv :: more) =>
      if found then [FoundLine keyword; SourceLine source_url; InfoLine (kv :: more)]
      else [NotFoundLine keyword; LastAttemptLine source_url (kv :: more)]
  | _ =>
      NotFoundLine keyword ::
      match final_state st with
      | Some d => if dict_truthy d then [] else [NoFinalStateLine]
      | None => [NoFinalStateLine]
      end
  end.

(** [main] once the settings are loaded; [stream] is [graph.stream]. *)
Definition main (stream : InputState.t -> RunnableConfig -> list event)
  (settings : Settings) (urls : urls_arg) (keyword : string) : list report_line :=
  let inputs := main_inputs urls keyword in
  let config := {| configurable := {| settings := settings |} |} in
  report keyword (events_loop (stream inputs config) loop_start).

(** The items the two loops get to: all of them up to the first with
    ["__end__"], that one included. *)
Fixpoint up_to_end (items : list item) : list item :=
  match items with
  | [] => []
  | (key, ADict fields true) :: _ => [(key, ADict fields true)]
  | it :: rest => it :: up_to_end rest
  end.

(** An item whose value is a dict with the key ["__end__"]. *)
Definition is_end (it : item) : bool :=
  match it with
  | (_, ADict _ true) => true
  | _ => false
  end.

(** An item of the [scraper] node that reports a finding. *)
Definition is_hit (it : item) : bool :=
  match it with
  | (key, ADict fields _) =>
      String.eqb key "scraper" &&
      match Update.is_information_found fields with Some true => true | _ => false end
  | _ => false
  end.

(** Sample data. *)
Definition nested_answer : dict :=
  [("summary", VList [VStr "Tokens"; VDict [("note", VStr "Foo is Not Mentioned")]])].

Definition hit_item (url : string) : item :=
  ("scraper", ADict (scraped url [] relevant_answer true) false).

Definition miss_item (url : string) : item :=
  ("scraper", ADict (scraped url [] [("error", VStr "connection refused")] false) false).

Definition end_item : item := ("__end__", ADict Update.empty true).

Definition sample_events : list event :=
  [[miss_item "a.example"]; [("evaluate", ADict (evaluate sample_state) false)];
   [hit_item "b.example"]; [end_item; hit_item "c.example"]; [hit_item "d.example"]].

(** The state of the sample run once its one page has failed, and once
    it has given an answer without the keyword. *)
Definition first_page_failed : OverallState :=
  apply_update (initial_state sample_input sample_config)
    (scraped default_url [] [("error", VStr "connection refused")] false).

Definition first_page_empty : OverallState :=
  apply_update (initial_state sample_input sample_config)
    (scraped default_url [] [("summary", VStr "Nothing here.")] false).

Definition first_scraped : OverallState :=
  apply_update sample_state
    (scraped "a.example" ["b.example"] [("error", VStr "connection refused")] false).

Definition second_finds : SmartScraperGraph :=
  fun _ source _ =>
    if String.eqb source "b.example" then Ok (VDict relevant_answer)
    else Ok (VDict [("summary", VStr "Nothing here.")]).

(** * Properties *)

(** ** The string model *)

Lemma prefix_iff (a b : string) :
  String.prefix a b = true <-> exists after, b = a ++ after.
Proof.
  revert b; induction a as [|c a IH]; intros b.
  - split; [intros _; now exists b | intros _; now destruct b].
  - destruct b as [|d b]; simpl.
    + split; [discriminate | intros [after H]; discriminate].
    + destruct (Ascii.ascii_dec c d) as [->|Hcd].
      * split.
        -- intros H. apply IH in H. destruct H as [after H]. exists after. congruence.
        -- intros [after H]. apply IH. exists after. congruence.
      * split; [discriminate | intros [after H]; congruence].
Qed.

Lemma contains_iff (needle hay : string) :
  contains needle hay = true <-> occurs_in needle hay.
Proof.
  unfold occurs_in. induction hay as [|c hay IH]; cbn [contains].
  - rewrite orb_false_r, prefix_iff. split.
    + intros [after H]. now exists EmptyString, after.
    + intros [[|b before] [after H]]; simpl in H; [now exists after | discriminate].
  - rewrite orb_true_iff, prefix_iff, IH. split.
    + intros [[after H] | (before & after & H)].
      * now exists EmptyString, after.
      * exists (String c before), after. simpl. congruence.
    + intros ([|b before] & after & H); simpl in H.
      * left. now exists after.
      * right. exists before, after. congruence.
Qed.

Lemma contains_false_iff (needle hay : string) :
  contains needle hay = false <-> ~ occurs_in needle hay.
Proof.
  rewrite <- contains_iff. destruct (contains needle hay); split; congruence.
Qed.

Example lower_sample : lower "How to Track TOKEN usage" = "how to track token usage".
Proof. reflexivity. Qed.

Example dict_values_sample :
  str_dict_values (values [("summary", VStr "it's fine"); ("pages", VInt 3)])
  = String.concat EmptyString
      ["dict_values(["; String dquote "it's fine"; String dquote ", 3])"].
Proof. reflexivity. Qed.

(** ** Merging *)

Lemma first_non_null_same {A : Type} (a : option A) : first_non_null a a = a.
Proof. now destruct a. Qed.

Lemma or_true_l (x : bool) : or_ true x = true.
Proof. reflexivity. Qed.

Lemma apply_update_found (s : OverallState) (u : Update.t) :
  is_information_found (apply_update s u)
  = match Update.is_information_found u with
    | Some x => is_information_found s || x
    | None => is_information_found s
    end.
Proof. reflexivity. Qed.

Lemma apply_whole_state (s : OverallState) : apply_update s (whole_state s) = s.
Proof.
  destruct s as [iu ci tu us ei eu f k]; unfold apply_update, whole_state; simpl.
  unfold or_. rewrite !first_non_null_same, orb_diag. reflexivity.
Qed.

Lemma scrape_manager_returns_state (state : OverallState) :
  snd (scrape_manager state) = state.
Proof.
  unfold scrape_manager. now destruct (negb (list_truthy (urls_to_scrape state))).
Qed.

Lemma initialize_state_total_pos (input : InputState.t) (config : RunnableConfig) :
  0 < total_urls (initialize_state input config).
Proof.
  destruct input as [[[[|c u]|[|u us]]|] kw]; unfold initialize_state, len; cbn; lia.
Qed.

(** ** Routing after [evaluate] *)

(** C2.  [should_continue_scraping] follows its decision table on every
    state: found gives [end_process], which the path map sends to
    [END]; not found with [current_url_index < total_urls] gives
    [continue_scraping], which the path map sends back to
    [scrape_manager]; not found with [current_url_index >= total_urls]
    gives [end_process] again. *)
Theorem should_continue_scraping_table (state : OverallState) (settings : Settings) :
  (is_information_found state = true ->
     should_continue_scraping state = "end_process" /\
     next_node (create_graph settings) Node.evaluate state = Ok Node.END) /\
  (is_information_found state = false ->
   current_url_index state < total_urls state ->
     should_continue_scraping state = "continue_scraping" /\
     next_node (create_graph settings) Node.evaluate state = Ok Node.scrape_manager) /\
  (is_information_found state = false ->
   current_url_index state >= total_urls state ->
     should_continue_scraping state = "end_process" /\
     next_node (create_graph settings) Node.evaluate state = Ok Node.END).
Proof.
  unfold next_node; cbn [create_graph edges conditional_edges out_of Node.eqb].
  unfold should_continue_scraping. split; [|split].
  - intros ->. split; reflexivity.
  - intros -> Hidx. apply Z.ltb_lt in Hidx. rewrite Hidx. split; reflexivity.
  - intros -> Hidx. apply Z.ge_le, Z.ltb_ge in Hidx. rewrite Hidx. split; reflexivity.
Qed.

Lemma should_continue_scraping_table_witness :
  (should_continue_scraping found_state = "end_process" /\
   next_node (create_graph sample_settings) Node.evaluate found_state = Ok Node.END) /\
  (should_continue_scraping sample_state = "continue_scraping" /\
   next_node (create_graph sample_settings) Node.evaluate sample_state = Ok Node.scrape_manager) /\
  (should_continue_scraping exhausted_state = "end_process" /\
   next_node (create_graph sample_settings) Node.evaluate exhausted_state = Ok Node.END).
Proof.
  split; [|split].
  - apply (proj1 (should_continue_scraping_table found_state sample_settings)). reflexivity.
  - apply (proj1 (proj2 (should_continue_scraping_table sample_state sample_settings))).
    + reflexivity.
    + vm_compute. reflexivity.
  - apply (proj2 (proj2 (should_continue_scraping_table exhausted_state sample_settings))).
    + reflexivity.
    + vm_compute. discriminate.
Defined.

(** ** Fan-out *)

(** C4.  [send_to_scraper] returns the empty list on an empty queue, and
    otherwise one task per entry of [urls_to_scrape], in order, each for
    the node [scraper] with the seed [{url: entry, keyword:
    state.keyword}]. *)
Theorem send_to_scraper_tasks (state : OverallState) :
  (urls_to_scrape state = [] -> send_to_scraper state = []) /\
  (urls_to_scrape state <> [] ->
     send_to_scraper state = map (task_for state) (urls_to_scrape state) /\
     length (send_to_scraper state) = length (urls_to_scrape state) /\
     forall i url, nth_error (urls_to_scrape state) i = Some url ->
                   nth_error (send_to_scraper state) i = Some (task_for state url)).
Proof.
  unfold send_to_scraper. split.
  - intros ->. reflexivity.
  - intros Hne. destruct (urls_to_scrape state) as [|u us] eqn:E; [congruence|].
    cbn [list_truthy negb]. fold (task_for state). repeat split.
    + apply length_map.
    + intros i url H. now apply map_nth_error.
Qed.

Lemma send_to_scraper_tasks_witness :
  send_to_scraper exhausted_state = [] /\
  send_to_scraper sample_state =
    [task_for sample_state "a.example"; task_for sample_state "b.example"].
Proof.
  split.
  - apply (proj1 (send_to_scraper_tasks exhausted_state)). reflexivity.
  - apply (proj2 (send_to_scraper_tasks sample_state)). vm_compute. discriminate.
Defined.

(** ** Initialisation *)

(** C6.  On a non-empty list of URLs and a non-empty keyword,
    [initialize_state] returns [total_urls] equal to the length of the
    list, [urls_to_scrape] and [initial_urls] equal to the list in its
    order, [current_url_index = 0], [is_information_found = False], and
    [extracted_info] and [extracted_from_url] both [None]; the keyword
    is kept. *)
Theorem initialize_state_of_list (us : list string) (kw : string) (config : RunnableConfig) :
  us <> [] -> kw <> EmptyString ->
  let state :=
    initialize_state {| InputState.urls := Some (UrlList us);
                        InputState.keyword := Some kw |} config in
  total_urls state = Z.of_nat (length us) /\
  urls_to_scrape state = us /\
  initial_urls state = us /\
  current_url_index state = 0 /\
  is_information_found state = false /\
  extracted_info state = None /\
  extracted_from_url state = None /\
  keyword state = kw.
Proof.
  intros Hus Hkw. destruct us as [|u us]; [congruence|].
  destruct kw as [|c kw]; [congruence|]. cbv zeta.
  unfold initialize_state; simpl. repeat split.
Qed.

Lemma initialize_state_of_list_witness :
  let state := initialize_state sample_input sample_config in
  total_urls state = 2 /\
  urls_to_scrape state = ["a.example"; "b.example"] /\
  initial_urls state = ["a.example"; "b.example"] /\
  current_url_index state = 0 /\
  is_information_found state = false /\
  extracted_info state = None /\
  extracted_from_url state = None /\
  keyword state = "foo".
Proof.
  apply (initialize_state_of_list ["a.example"; "b.example"] "foo" sample_config);
    discriminate.
Defined.

(** C7.  [initialize_state] is total: every input map gives a state,
    with a non-empty queue that is the whole of [initial_urls].  Absent
    or empty [urls] become the one default URL; an absent or empty
    [keyword] becomes the default keyword; a non-empty bare string for
    [urls] becomes the one-element list of it. *)
Theorem initialize_state_defaults (input : InputState.t) (config : RunnableConfig) :
  let state := initialize_state input config in
  (urls_to_scrape state = initial_urls state /\
   total_urls state = len (initial_urls state) /\
   0 < total_urls state /\
   keyword state <> EmptyString) /\
  (urls_missing input ->
     initial_urls state = [default_url] /\ total_urls state = 1) /\
  (keyword_missing input -> keyword state = default_keyword) /\
  (forall u, u <> EmptyString -> InputState.urls input = Some (OneUrl u) ->
     initial_urls state = [u] /\ total_urls state = 1).
Proof.
  destruct input as [urls kw]. cbv zeta. unfold initialize_state. cbn [InputState.urls InputState.keyword].
  split; [|split; [|split]].
  - cbn [urls_to_scrape initial_urls total_urls keyword]. repeat split.
    + apply (initialize_state_total_pos {| InputState.urls := urls; InputState.keyword := kw |} config).
    + destruct kw as [[|c kw]|]; cbn; discriminate.
  - unfold urls_missing. cbn [InputState.urls].
    intros [-> | [-> | ->]]; split; reflexivity.
  - unfold keyword_missing. cbn [InputState.keyword].
    intros [-> | ->]; reflexivity.
  - intros u Hu ->. destruct u as [|c u]; [congruence|]. split; reflexivity.
Qed.

Lemma initialize_state_defaults_witness :
  (initial_urls (initialize_state empty_input sample_config) = [default_url] /\
   total_urls (initialize_state empty_input sample_config) = 1) /\
  keyword (initialize_state empty_input sample_config) = default_keyword /\
  (initial_urls (initialize_state bare_string_input sample_config) = ["a.example"] /\
   total_urls (initialize_state bare_string_input sample_config) = 1).
Proof.
  split; [|split].
  - apply (proj1 (proj2 (initialize_state_defaults empty_input sample_config))).
    right; right; reflexivity.
  - apply (proj1 (proj2 (proj2 (initialize_state_defaults empty_input sample_config)))).
    right; reflexivity.
  - apply (proj2 (proj2 (proj2 (initialize_state_defaults bare_string_input sample_config)))
             "a.example"); [discriminate | reflexivity].
Defined.

(** ** Reducers *)

(** C8.  The reducer of [is_information_found] is [or_], and [True or_ x]
    is [True]: once the flag is [True] in a state, it is [True] after
    any merge, and so after any sequence of merges. *)
Theorem found_flag_monotone (state : OverallState) :
  is_information_found state = true ->
  (forall x, or_ (is_information_found state) x = true) /\
  (forall update, is_information_found (apply_update state update) = true) /\
  (forall updates, is_information_found (fold_left apply_update updates state) = true).
Proof.
  intros Hfound. split; [|split].
  - intros x. rewrite Hfound. reflexivity.
  - intros update. rewrite apply_update_found, Hfound. now destruct (Update.is_information_found update).
  - intros updates. revert state Hfound.
    induction updates as [|u updates IH]; intros state Hfound; simpl.
    + exact Hfound.
    + apply IH. rewrite apply_update_found, Hfound.
      now destruct (Update.is_information_found u).
Qed.

Lemma found_flag_monotone_witness :
  is_information_found
    (fold_left apply_update [evaluate found_state; whole_state sample_state; Update.empty]
       found_state) = true.
Proof.
  apply (proj2 (proj2 (found_flag_monotone found_state eq_refl))).
Defined.

(** ** [scrape_manager] *)

(** C9.  [scrape_manager] returns the state it was given, whichever
    branch it takes, and merging that returned state changes no field:
    the state after the node is the state before it. *)
Theorem scrape_manager_keeps_state (state : OverallState) :
  snd (scrape_manager state) = state /\
  apply_update state (whole_state (snd (scrape_manager state))) = state.
Proof.
  rewrite scrape_manager_returns_state. split; [reflexivity | apply apply_whole_state].
Qed.

(** ** [scraper] *)

Lemma scraper_calls_extractor (run : SmartScraperGraph) (state : OverallState)
  (config : RunnableConfig) (url : string) (rest : list string) :
  urls_to_scrape state = url :: rest ->
  key_of config <> EmptyString ->
  scraper run state config =
    (outcome <-
       try_except
         (result <- run (prompt_for (keyword state)) url (graph_config_for (key_of config)) ;;
          match result with
          | VDict extracted_data =>
              Ok (extracted_data, relevant (keyword state) extracted_data)
          | other => Ok ([("raw_output", VStr (str other))], false)
          end)
         (fun message => Ok ([("error", VStr message)], false)) ;;
     Ok (scraped url rest (fst outcome) (snd outcome))).
Proof.
  intros Hq Hkey. unfold scraper, key_of in *. rewrite Hq.
  destruct (openai_api_key (settings (configurable config))); [congruence|]. reflexivity.
Qed.

(** C3.  With a non-empty queue, when the extractor (called, so with an
    API key at hand) raises an error, [scraper] returns normally:
    [extracted_info] is [{"error": str(e)}], [extracted_from_url] is the
    head URL, [is_information_found] is [False], and the Executor goes
    on to [evaluate]. *)
Theorem scraper_contains_extractor_error (run : SmartScraperGraph) (state : OverallState)
  (config : RunnableConfig) (url : string) (rest : list string) (class message : string) :
  urls_to_scrape state = url :: rest ->
  key_of config <> EmptyString ->
  run (prompt_for (keyword state)) url (graph_config_for (key_of config))
    = Raise (Error class message) ->
  scraper run state config = Ok (scraped url rest [("error", VStr message)] false) /\
  step run config (Node.scraper, state)
    = Ok (Node.evaluate,
          apply_update state (scraped url rest [("error", VStr message)] false)).
Proof.
  intros Hq Hkey Hrun.
  assert (H : scraper run state config = Ok (scraped url rest [("error", VStr message)] false)).
  { rewrite (scraper_calls_extractor run state config url rest Hq Hkey), Hrun. reflexivity. }
  split; [exact H|]. unfold step, run_node. rewrite H. reflexivity.
Qed.

Lemma scraper_contains_extractor_error_witness :
  scraper failing_extractor sample_state sample_config
    = Ok (scraped "a.example" ["b.example"] [("error", VStr "connection refused")] false) /\
  step failing_extractor sample_config (Node.scraper, sample_state)
    = Ok (Node.evaluate,
          apply_update sample_state
            (scraped "a.example" ["b.example"] [("error", VStr "connection refused")] false)).
Proof.
  apply (scraper_contains_extractor_error failing_extractor sample_state sample_config
           "a.example" ["b.example"] "ConnectionError" "connection refused").
  - reflexivity.
  - discriminate.
  - reflexivity.
Defined.

(** C5, as the code has it.  When the extractor returns a record,
    [scraper] stores it and sets [is_information_found] to [True]
    exactly when the lower-cased text of the values view of the record,
    Python's [str(result.values())], that is ["dict_values(["], the
    [repr] of each value in order with [", "] between, and ["])"], with
    no key in it, has the lower-cased keyword in it and has neither
    ["not mentioned"] nor ["not relevant"] in it; in every other case
    the flag is [False]. *)
Theorem scraper_relevance_check (run : SmartScraperGraph) (state : OverallState)
  (config : RunnableConfig) (url : string) (rest : list string) (record : dict) :
  urls_to_scrape state = url :: rest ->
  key_of config <> EmptyString ->
  run (prompt_for (keyword state)) url (graph_config_for (key_of config))
    = Ok (VDict record) ->
  let summary := lower ("dict_values([" ++ join ", " (map repr (map snd record)) ++ "])") in
  exists found : bool,
    scraper run state config = Ok (scraped url rest record found) /\
    (found = true <->
       occurs_in (lower (keyword state)) summary /\
       ~ occurs_in "not mentioned" summary /\
       ~ occurs_in "not relevant" summary).
Proof.
  intros Hq Hkey Hrun summary.
  exists (relevant (keyword state) record). split.
  - rewrite (scraper_calls_extractor run state config url rest Hq Hkey), Hrun. reflexivity.
  - unfold relevant, summary_of, str_dict_values, values. fold summary.
    rewrite !andb_true_iff, !negb_true_iff, contains_iff, !contains_false_iff.
    tauto.
Qed.

Lemma scraper_relevance_check_witness :
  scraper (constant_extractor relevant_answer) sample_state sample_config
    = Ok (scraped "a.example" ["b.example"] relevant_answer true).
Proof.
  destruct (scraper_relevance_check (constant_extractor relevant_answer) sample_state
              sample_config "a.example" ["b.example"] relevant_answer)
    as (found & Hs & Hiff); [reflexivity | discriminate | reflexivity |].
  rewrite Hs. f_equal. f_equal. apply Hiff.
  split; [|split]; [apply contains_iff | apply contains_false_iff | apply contains_false_iff];
    reflexivity.
Defined.

(** C5 read on the text of the record itself, [str(result)], fails both
    ways: that text has the keys in it and has no ["dict_values(["].  A
    record whose only mention of the keyword is a key is not a finding,
    though its own text has the keyword and neither denial phrase; a
    record is a finding for the keyword ["values"], though its own text
    has no such word. *)
Lemma record_text_counterexample :
  (scraper (constant_extractor keyword_in_key) sample_state sample_config
     = Ok (scraped "a.example" ["b.example"] keyword_in_key false) /\
   occurs_in (lower (keyword sample_state)) (lower (str (VDict keyword_in_key))) /\
   ~ occurs_in "not mentioned" (lower (str (VDict keyword_in_key))) /\
   ~ occurs_in "not relevant" (lower (str (VDict keyword_in_key)))) /\
  (scraper (constant_extractor keyword_in_key) values_state sample_config
     = Ok (scraped "a.example" [] keyword_in_key true) /\
   ~ occurs_in (lower (keyword values_state)) (lower (str (VDict keyword_in_key)))).
Proof.
  split; [split; [reflexivity|split; [|split]] | split; [reflexivity|]].
  - apply contains_iff. reflexivity.
  - apply contains_false_iff. reflexivity.
  - apply contains_false_iff. reflexivity.
  - apply contains_false_iff. reflexivity.
Qed.

Example scraper_finds_keyword :
  scraper (constant_extractor relevant_answer) sample_state sample_config
    = Ok (scraped "a.example" ["b.example"] relevant_answer true).
Proof. reflexivity. Qed.

Example scraper_heeds_not_mentioned :
  scraper (constant_extractor [("summary", VStr "Foo is NOT mentioned here.")])
    sample_state sample_config
    = Ok (scraped "a.example" ["b.example"]
            [("summary", VStr "Foo is NOT mentioned here.")] false).
Proof. reflexivity. Qed.

(** C10.  With a non-empty queue and an empty API key, [scraper] returns
    [extracted_info = None] next to [extracted_from_url] set to the head
    URL and [is_information_found = False], and writes no
    [urls_to_scrape]: the merge leaves the queue as it was, and on a
    state with neither field set it sets the URL without the record. *)
Theorem scraper_without_api_key (run : SmartScraperGraph) (state : OverallState)
  (config : RunnableConfig) (url : string) (rest : list string) :
  urls_to_scrape state = url :: rest ->
  key_of config = EmptyString ->
  exists update,
    scraper run state config = Ok update /\
    Update.extracted_info update = Some None /\
    Update.extracted_from_url update = Some (Some url) /\
    Update.is_information_found update = Some false /\
    Update.urls_to_scrape update = None /\
    urls_to_scrape (apply_update state update) = urls_to_scrape state /\
    is_information_found (apply_update state update) = is_information_found state /\
    (extracted_info state = None -> extracted_from_url state = None ->
       extracted_info (apply_update state update) = None /\
       extracted_from_url (apply_update state update) = Some url).
Proof.
  intros Hq Hkey. unfold scraper. fold (key_of config). rewrite Hq, Hkey.
  cbn [str_truthy negb]. eexists; split; [reflexivity|].
  do 4 (split; [reflexivity|]).
  unfold apply_update; cbn. rewrite Hq. split; [reflexivity|]. split.
  - unfold or_. apply orb_false_r.
  - intros -> ->. split; reflexivity.
Qed.

Lemma scraper_without_api_key_witness :
  exists update,
    scraper failing_extractor sample_state keyless_config = Ok update /\
    Update.extracted_info update = Some None /\
    Update.extracted_from_url update = Some (Some "a.example") /\
    Update.is_information_found update = Some false /\
    Update.urls_to_scrape update = None /\
    urls_to_scrape (apply_update sample_state update) = urls_to_scrape sample_state /\
    is_information_found (apply_update sample_state update)
      = is_information_found sample_state /\
    (extracted_info sample_state = None -> extracted_from_url sample_state = None ->
       extracted_info (apply_update sample_state update) = None /\
       extracted_from_url (apply_update sample_state update) = Some "a.example").
Proof.
  apply (scraper_without_api_key failing_extractor sample_state keyless_config
           "a.example" ["b.example"]); reflexivity.
Defined.

(** ** The loop of the graph when nothing is found *)

Lemma initialize_state_stuck (input : InputState.t) (config : RunnableConfig) :
  stuck (keyword (initialize_state input config)) (initialize_state input config).
Proof.
  split; try reflexivity. apply initialize_state_total_pos.
Qed.

Lemma apply_update_stuck (kw : string) (state : OverallState) (update : Update.t) :
  stuck kw state ->
  Update.keyword update = None ->
  Update.current_url_index update = None ->
  Update.total_urls update = None ->
  Update.is_information_found update = Some false ->
  stuck kw (apply_update state update).
Proof.
  intros [Hk Hi Ht Hf] Uk Ui Ut Uf.
  split; unfold apply_update; cbn; rewrite ?Uk, ?Ui, ?Ut, ?Uf; cbn; try assumption.
  unfold or_. now rewrite Hf.
Qed.

Lemma scraper_writes (run : SmartScraperGraph) (state : OverallState)
  (config : RunnableConfig) (update : Update.t) :
  scraper run state config = Ok update ->
  Update.keyword update = None /\
  Update.current_url_index update = None /\
  Update.total_urls update = None.
Proof.
  unfold scraper. destruct (urls_to_scrape state) as [|url rest].
  - intros [= <-]. repeat split.
  - destruct (negb (str_truthy (openai_api_key (settings (configurable config))))).
    + intros [= <-]. repeat split.
    + destruct (try_except _ _) as [outcome|e]; cbn.
      * intros [= <-]. repeat split.
      * discriminate.
Qed.

Lemma step_stuck (run : SmartScraperGraph) (config : RunnableConfig) (kw : string)
  (n : Node.t) (state : OverallState) :
  never_finds run config kw ->
  stuck kw state -> n <> Node.END ->
  exists n' state',
    step run config (n, state) = Ok (n', state') /\ stuck kw state' /\ n' <> Node.END.
Proof.
  intros Hrun Hst Hn. destruct n; [| | |congruence]; unfold step, run_node, next_node;
    cbn [create_graph edges conditional_edges out_of Node.eqb bind].
  - rewrite scrape_manager_returns_state, apply_whole_state.
    unfold after_scrape_manager.
    destruct (list_truthy (urls_to_scrape state)); cbn; eexists _, _;
      (split; [reflexivity|split; [assumption|discriminate]]).
  - destruct (Hrun state (stuck_keyword Hst)) as (update & Hup & Hflag).
    rewrite Hup. cbn. eexists _, _. split; [reflexivity|]. split; [|discriminate].
    destruct (scraper_writes run state config update Hup) as (Uk & Ui & Ut).
    now apply apply_update_stuck.
  - assert (Hst' : stuck kw (apply_update state (evaluate state))).
    { unfold evaluate. rewrite (stuck_flag Hst). now apply apply_update_stuck. }
    unfold should_continue_scraping.
    rewrite (stuck_flag Hst'), (stuck_index Hst').
    destruct (Z.ltb_spec 0 (total_urls (apply_update state (evaluate state)))) as [_|Hle].
    + cbn. eexists _, _. split; [reflexivity|]. split; [assumption|discriminate].
    + pose proof (stuck_total Hst'). lia.
Qed.

(** * Further properties *)

(** ** Reducers and [evaluate] *)

Lemma apply_evaluate (state : OverallState) : apply_update state (evaluate state) = state.
Proof.
  destruct state as [iu ci tu us ei eu f k]. unfold evaluate; cbn.
  destruct f; reflexivity.
Qed.

(** X1.  [evaluate] writes back the flag it reads, so merging its output
    changes no field of any state, and running it again on the merged
    state gives the same output. *)
Theorem evaluate_is_pass_through (state : OverallState) :
  Update.is_information_found (evaluate state) = Some (is_information_found state) /\
  apply_update state (evaluate state) = state /\
  evaluate (apply_update state (evaluate state)) = evaluate state.
Proof.
  rewrite apply_evaluate. repeat split.
  unfold evaluate. now destruct (is_information_found state).
Qed.

Lemma apply_update_info (s : OverallState) (u : Update.t) (info : dict) :
  extracted_info s = Some info -> extracted_info (apply_update s u) = Some info.
Proof.
  intros H. unfold apply_update; cbn. rewrite H.
  now destruct (Update.extracted_info u).
Qed.

Lemma apply_update_url (s : OverallState) (u : Update.t) (url : string) :
  extracted_from_url s = Some url -> extracted_from_url (apply_update s u) = Some url.
Proof.
  intros H. unfold apply_update; cbn. rewrite H.
  now destruct (Update.extracted_from_url u).
Qed.

(** X2.  First write wins: once [extracted_info] (or
    [extracted_from_url]) holds a value, no merge and no sequence of
    merges replaces it, whatever the later updates carry. *)
Theorem first_write_wins (state : OverallState) (updates : list Update.t) :
  (forall info, extracted_info state = Some info ->
     extracted_info (fold_left apply_update updates state) = Some info) /\
  (forall url, extracted_from_url state = Some url ->
     extracted_from_url (fold_left apply_update updates state) = Some url).
Proof.
  revert state. induction updates as [|u updates IH]; intros state; cbn [fold_left].
  - split; intros x H; exact H.
  - split; intros x H.
    + apply (proj1 (IH (apply_update state u))). now apply apply_update_info.
    + apply (proj2 (IH (apply_update state u))). now apply apply_update_url.
Qed.

Lemma first_write_wins_witness :
  extracted_info
    (fold_left apply_update
       [scraped "b.example" [] relevant_answer true; evaluate found_state] first_scraped)
    = Some [("error", VStr "connection refused")] /\
  extracted_from_url
    (fold_left apply_update
       [scraped "b.example" [] relevant_answer true; evaluate found_state] first_scraped)
    = Some "a.example".
Proof.
  split.
  - apply (proj1 (first_write_wins first_scraped
                    [scraped "b.example" [] relevant_answer true; evaluate found_state])).
    reflexivity.
  - apply (proj2 (first_write_wins first_scraped
                    [scraped "b.example" [] relevant_answer true; evaluate found_state])).
    reflexivity.
Defined.

(** X3.  [first_non_null] is associative, has [None] as unit on both
    sides, is idempotent, and keeps its left argument when that is
    set. *)
Theorem first_non_null_algebra (A : Type) (a b c : option A) (x : A) :
  first_non_null (first_non_null a b) c = first_non_null a (first_non_null b c) /\
  first_non_null None a = a /\
  first_non_null a None = a /\
  first_non_null a a = a /\
  first_non_null (Some x) b = Some x.
Proof. destruct a, b, c; repeat split. Qed.

(** ** [scraper], branch by branch *)

(** X4.  On an empty queue [scraper] neither reads the API key nor calls
    the extractor: it returns the same update for every extractor and
    config, and merging that update leaves the state as it was. *)
Theorem scraper_on_empty_queue (run : SmartScraperGraph) (state : OverallState)
  (config : RunnableConfig) :
  urls_to_scrape state = [] ->
  exists update,
    scraper run state config = Ok update /\
    (forall run' config', scraper run' state config' = Ok update) /\
    Update.is_information_found update = Some false /\
    Update.urls_to_scrape update = Some [] /\
    apply_update state update = state.
Proof.
  intros Hq. unfold scraper. rewrite Hq. eexists. split; [reflexivity|].
  split; [reflexivity|]. split; [reflexivity|]. split; [reflexivity|].
  destruct state as [iu ci tu us ei eu f k]. cbn in Hq. subst us.
  unfold apply_update; cbn. unfold or_. rewrite orb_false_r.
  destruct ei, eu; reflexivity.
Qed.

Lemma scraper_on_empty_queue_witness :
  exists update,
    scraper failing_extractor exhausted_state sample_config = Ok update /\
    (forall run' config', scraper run' exhausted_state config' = Ok update) /\
    Update.is_information_found update = Some false /\
    Update.urls_to_scrape update = Some [] /\
    apply_update exhausted_state update = exhausted_state.
Proof.
  apply (scraper_on_empty_queue failing_extractor exhausted_state sample_config).
  reflexivity.
Defined.

(** X5.  A result that is not a dict is never a finding: [scraper]
    stores it as [{"raw_output": str(result)}] with
    [is_information_found = False], also when its text has the
    keyword. *)
Theorem scraper_wraps_other_results (run : SmartScraperGraph) (state : OverallState)
  (config : RunnableConfig) (url : string) (rest : list string) (answer : value) :
  urls_to_scrape state = url :: rest ->
  key_of config <> EmptyString ->
  run (prompt_for (keyword state)) url (graph_config_for (key_of config)) = Ok answer ->
  (forall d, answer <> VDict d) ->
  scraper run state config
    = Ok (scraped url rest [("raw_output", VStr (str answer))] false).
Proof.
  intros Hq Hkey Hrun Hnot.
  rewrite (scraper_calls_extractor run state config url rest Hq Hkey), Hrun.
  destruct answer; try reflexivity. now destruct (Hnot items).
Qed.

Lemma scraper_wraps_other_results_witness :
  scraper (fun _ _ _ => Ok (VStr "All about foo")) sample_state sample_config
    = Ok (scraped "a.example" ["b.example"] [("raw_output", VStr "All about foo")] false).
Proof.
  apply (scraper_wraps_other_results (fun _ _ _ => Ok (VStr "All about foo"))
           sample_state sample_config "a.example" ["b.example"] (VStr "All about foo")).
  - reflexivity.
  - discriminate.
  - reflexivity.
  - discriminate.
Defined.

(** X6.  [except Exception] lets through what is no [Exception]: when
    the extractor raises such an exit request, [scraper] raises it, and
    so does the run from that node on, for any positive number of
    turns. *)
Theorem scraper_passes_exit (run : SmartScraperGraph) (state : OverallState)
  (config : RunnableConfig) (url : string) (rest : list string) (class : string) :
  urls_to_scrape state = url :: rest ->
  key_of config <> EmptyString ->
  run (prompt_for (keyword state)) url (graph_config_for (key_of config))
    = Raise (Exit class) ->
  scraper run state config = Raise (Exit class) /\
  forall fuel, steps run config (S fuel) (Node.scraper, state) = Raise (Exit class).
Proof.
  intros Hq Hkey Hrun.
  assert (H : scraper run state config = Raise (Exit class)).
  { rewrite (scraper_calls_extractor run state config url rest Hq Hkey), Hrun. reflexivity. }
  split; [exact H|]. intros fuel. cbn [steps]. unfold step, run_node. rewrite H. reflexivity.
Qed.

Lemma scraper_passes_exit_witness :
  scraper (fun _ _ _ => Raise (Exit "KeyboardInterrupt")) sample_state sample_config
    = Raise (Exit "KeyboardInterrupt") /\
  forall fuel,
    steps (fun _ _ _ => Raise (Exit "KeyboardInterrupt")) sample_config (S fuel)
      (Node.scraper, sample_state) = Raise (Exit "KeyboardInterrupt").
Proof.
  apply (scraper_passes_exit (fun _ _ _ => Raise (Exit "KeyboardInterrupt"))
           sample_state sample_config "a.example" ["b.example"] "KeyboardInterrupt").
  - reflexivity.
  - discriminate.
  - reflexivity.
Defined.

Lemma scraper_returns_scraped (run : SmartScraperGraph) (state : OverallState)
  (config : RunnableConfig) (url : string) (rest : list string) (update : Update.t) :
  urls_to_scrape state = url :: rest ->
  key_of config <> EmptyString ->
  scraper run state config = Ok update ->
  exists data found, update = scraped url rest data found.
Proof.
  intros Hq Hkey. rewrite (scraper_calls_extractor run state config url rest Hq Hkey).
  destruct (try_except _ _) as [[data found]|e]; cbn; [|discriminate].
  intros [= <-]. now exists data, found.
Qed.

(** X7.  Whenever [scraper] returns after calling the extractor (record,
    other result or contained error), it has taken exactly the head of
    the queue: the update names the head as [extracted_from_url] and
    carries the tail, and the merged queue is one shorter. *)
Theorem scraper_takes_head (run : SmartScraperGraph) (state : OverallState)
  (config : RunnableConfig) (url : string) (rest : list string) (update : Update.t) :
  urls_to_scrape state = url :: rest ->
  key_of config <> EmptyString ->
  scraper run state config = Ok update ->
  Update.extracted_from_url update = Some (Some url) /\
  Update.urls_to_scrape update = Some rest /\
  urls_to_scrape (apply_update state update) = rest /\
  len (urls_to_scrape (apply_update state update)) = len (urls_to_scrape state) - 1.
Proof.
  intros Hq Hkey Hs.
  destruct (scraper_returns_scraped run state config url rest update Hq Hkey Hs)
    as (data & found & ->).
  repeat split. cbn. rewrite Hq. unfold len. cbn [length]. lia.
Qed.

Lemma scraper_takes_head_witness :
  Update.extracted_from_url (scraped "a.example" ["b.example"] relevant_answer true)
    = Some (Some "a.example") /\
  Update.urls_to_scrape (scraped "a.example" ["b.example"] relevant_answer true)
    = Some ["b.example"] /\
  urls_to_scrape
    (apply_update sample_state (scraped "a.example" ["b.example"] relevant_answer true))
    = ["b.example"] /\
  len (urls_to_scrape
         (apply_update sample_state (scraped "a.example" ["b.example"] relevant_answer true)))
    = len (urls_to_scrape sample_state) - 1.
Proof.
  apply (scraper_takes_head (constant_extractor relevant_answer) sample_state sample_config
           "a.example" ["b.example"]); [reflexivity | discriminate | reflexivity].
Defined.

(** ** Runs of the graph *)

Lemma steps_S (run : SmartScraperGraph) (config : RunnableConfig) (fuel : nat)
  (n : Node.t) (state : OverallState) :
  steps run config (S fuel) (n, state)
  = (at' <- step run config (n, state) ;;
     if Node.eqb n Node.evaluate then Ok at' else steps run config fuel at').
Proof. destruct n; reflexivity. Qed.

Lemma steps_at_end (run : SmartScraperGraph) (config : RunnableConfig) (fuel : nat)
  (state : OverallState) :
  steps run config fuel (Node.END, state) = Ok (Node.END, state).
Proof. induction fuel as [|fuel IH]; [reflexivity|]. rewrite steps_S. exact IH. Qed.

(** The three moves of the graph, each from its node. *)
Lemma step_scrape_manager (run : SmartScraperGraph) (config : RunnableConfig)
  (state : OverallState) :
  step run config (Node.scrape_manager, state)
  = Ok (if list_truthy (urls_to_scrape state) then Node.scraper else Node.evaluate, state).
Proof.
  unfold step, run_node, next_node;
    cbn [create_graph edges conditional_edges out_of Node.eqb bind].
  rewrite scrape_manager_returns_state, apply_whole_state. unfold after_scrape_manager.
  now destruct (list_truthy (urls_to_scrape state)).
Qed.

Lemma step_scraper (run : SmartScraperGraph) (config : RunnableConfig)
  (state : OverallState) :
  step run config (Node.scraper, state)
  = (update <- scraper run state config ;; Ok (Node.evaluate, apply_update state update)).
Proof.
  unfold step, run_node, next_node;
    cbn [create_graph edges conditional_edges out_of Node.eqb].
  now destruct (scraper run state config).
Qed.

Lemma step_evaluate (run : SmartScraperGraph) (config : RunnableConfig)
  (state : OverallState) :
  step run config (Node.evaluate, state)
  = Ok (if is_information_found state then Node.END
        else if current_url_index state <? total_urls state then Node.scrape_manager
        else Node.END, state).
Proof.
  unfold step, run_node, next_node;
    cbn [create_graph edges conditional_edges out_of Node.eqb bind].
  rewrite apply_evaluate. unfold should_continue_scraping.
  destruct (is_information_found state); [reflexivity|].
  now destruct (current_url_index state <? total_urls state).
Qed.

Lemma step_is_merge (run : SmartScraperGraph) (config : RunnableConfig)
  (n n' : Node.t) (state state' : OverallState) :
  step run config (n, state) = Ok (n', state') ->
  state' = state \/
  (n = Node.scraper /\ exists update,
     scraper run state config = Ok update /\ state' = apply_update state update).
Proof.
  destruct n.
  - rewrite step_scrape_manager. intros [= _ <-]. now left.
  - rewrite step_scraper. destruct (scraper run state config) as [update|e] eqn:E; cbn.
    + intros [= _ <-]. right. split; [reflexivity|]. now exists update.
    + discriminate.
  - rewrite step_evaluate. intros [= _ <-]. now left.
  - cbn. intros [= _ <-]. now left.
Qed.

Lemma steps_keep (P : OverallState -> Prop) (run : SmartScraperGraph)
  (config : RunnableConfig) :
  (forall state update, P state -> scraper run state config = Ok update ->
                        P (apply_update state update)) ->
  forall fuel n state n' state',
    P state -> steps run config fuel (n, state) = Ok (n', state') -> P state'.
Proof.
  intros Hscr. induction fuel as [|fuel IH]; intros n state n' state' HP.
  - intros [= _ <-]. exact HP.
  - rewrite steps_S.
    destruct (step run config (n, state)) as [[n1 s1]|e] eqn:E; cbn [bind]; [|discriminate].
    assert (HP1 : P s1).
    { destruct (step_is_merge run config n n1 state s1 E) as [->|(_ & u & Hu & ->)];
        [exact HP | now apply Hscr]. }
    destruct (Node.eqb n Node.evaluate).
    + intros [= _ <-]. exact HP1.
    + now apply IH.
Qed.

(** What [scraper] writes of the queue, on any branch. *)
Lemma scraper_queue (run : SmartScraperGraph) (state : OverallState)
  (config : RunnableConfig) (update : Update.t) :
  scraper run state config = Ok update ->
  Update.initial_urls update = None /\
  (Update.urls_to_scrape update = None \/
   Update.urls_to_scrape update = Some (tl (urls_to_scrape state))).
Proof.
  unfold scraper. destruct (urls_to_scrape state) as [|url rest].
  - intros [= <-]. split; [reflexivity | now right].
  - destruct (negb (str_truthy (openai_api_key (settings (configurable config))))).
    + intros [= <-]. split; [reflexivity | now left].
    + destruct (try_except _ _) as [outcome|e]; cbn; [|discriminate].
      intros [= <-]. split; [reflexivity | now right].
Qed.

Lemma scraper_names_head (run : SmartScraperGraph) (state : OverallState)
  (config : RunnableConfig) (url : string) (rest : list string) (update : Update.t) :
  urls_to_scrape state = url :: rest ->
  scraper run state config = Ok update ->
  Update.extracted_from_url update = Some (Some url).
Proof.
  intros Hq. unfold scraper. rewrite Hq.
  destruct (negb (str_truthy (openai_api_key (settings (configurable config))))).
  - now intros [= <-].
  - destruct (try_except _ _) as [outcome|e]; cbn; [|discriminate]. now intros [= <-].
Qed.

Lemma queue_is_rest_tl (state : OverallState) (update : Update.t) :
  queue_is_rest state ->
  Update.initial_urls update = None ->
  Update.urls_to_scrape update = None \/
  Update.urls_to_scrape update = Some (tl (urls_to_scrape state)) ->
  queue_is_rest (apply_update state update).
Proof.
  intros [taken H] Hi Hq. unfold queue_is_rest, apply_update; cbn. rewrite Hi; cbn.
  destruct Hq as [-> | ->]; cbn.
  - now exists taken.
  - destruct (urls_to_scrape state) as [|url rest]; cbn.
    + now exists taken.
    + exists (taken ++ [url])%list. rewrite <- app_assoc. exact H.
Qed.

Lemma queue_is_rest_len (state : OverallState) :
  queue_is_rest state -> len (urls_to_scrape state) <= len (initial_urls state).
Proof.
  intros [taken H]. unfold len. rewrite H, length_app. lia.
Qed.

Lemma initial_state_urls (input : InputState.t) (config : RunnableConfig) :
  initial_urls (initial_state input config) = [default_url] /\
  urls_to_scrape (initial_state input config) = [default_url] /\
  total_urls (initial_state input config) = 1 /\
  current_url_index (initial_state input config) = 0 /\
  is_information_found (initial_state input config) = false /\
  extracted_info (initial_state input config) = None /\
  extracted_from_url (initial_state input config) = None.
Proof. repeat split. Qed.

Lemma initial_state_stuck (input : InputState.t) (config : RunnableConfig) :
  stuck (keyword (initial_state input config)) (initial_state input config).
Proof. apply initialize_state_stuck. Qed.

(** The whole of a run: [scrape_manager] sends the one URL to
    [scraper], whose update is merged; [evaluate] follows, and there the
    run stops, with the node its routing picks left pending. *)
Lemma run_graph_shape (run : SmartScraperGraph) (config : RunnableConfig)
  (input : InputState.t) (fuel : nat) :
  run_graph run config input (2 + fuel)
  = (update <- scraper run (initial_state input config) config ;;
     (match fuel with
     | O => Ok (Node.evaluate, apply_update (initial_state input config) update)
     | S _ =>
         Ok (if is_information_found (apply_update (initial_state input config) update)
             then Node.END else Node.scrape_manager,
             apply_update (initial_state input config) update)
      end)).
Proof.
  unfold run_graph, start. set (s0 := initial_state input config).
  change (2 + fuel)%nat with (S (S fuel)).
  rewrite steps_S, step_scrape_manager. cbn [bind Node.eqb].
  replace (urls_to_scrape s0) with [default_url] by reflexivity. cbn [list_truthy].
  rewrite steps_S, step_scraper. cbn [Node.eqb].
  destruct (scraper run s0 config) as [update|e] eqn:Hs; cbn [bind]; [|reflexivity].
  destruct fuel as [|fuel]; [reflexivity|].
  rewrite steps_S, step_evaluate. cbn [bind Node.eqb].
  destruct (scraper_writes run s0 config update Hs) as (_ & Ui & Ut).
  assert (Hlt : (current_url_index (apply_update s0 update)
                 <? total_urls (apply_update s0 update)) = true).
  { unfold apply_update; cbn. rewrite Ui, Ut. reflexivity. }
  rewrite Hlt. reflexivity.
Qed.

(** X8.  At every point of every run the setup is as [initialize_state]
    left it: [initial_urls], [total_urls] and [keyword] are unchanged,
    [total_urls] is the length of [initial_urls], [current_url_index] is
    still [0], and the queue is a tail of [initial_urls], so never longer
    than [total_urls]. *)
Theorem run_keeps_setup (run : SmartScraperGraph) (config : RunnableConfig)
  (input : InputState.t) (fuel : nat) (n : Node.t) (state : OverallState) :
  run_graph run config input fuel = Ok (n, state) ->
  initial_urls state = initial_urls (initial_state input config) /\
  total_urls state = len (initial_urls state) /\
  keyword state = keyword (initial_state input config) /\
  current_url_index state = 0 /\
  queue_is_rest state /\
  len (urls_to_scrape state) <= total_urls state.
Proof.
  unfold run_graph, start. set (s0 := initial_state input config). intros H.
  assert (HP : initial_urls state = initial_urls s0 /\
               total_urls state = len (initial_urls state) /\
               keyword state = keyword s0 /\
               current_url_index state = 0 /\
               queue_is_rest state).
  { refine (steps_keep
              (fun s => initial_urls s = initial_urls s0 /\
                        total_urls s = len (initial_urls s) /\
                        keyword s = keyword s0 /\
                        current_url_index s = 0 /\
                        queue_is_rest s)
              run config _ fuel Node.scrape_manager s0 n state _ H).
    - intros s u (Hi & Ht & Hk & Hc & Hq) Hu.
      destruct (scraper_writes run s config u Hu) as (Uk & Uc & Ut).
      destruct (scraper_queue run s config u Hu) as (Ui & Uq).
      assert (Hq' := queue_is_rest_tl s u Hq Ui Uq).
      unfold apply_update in *; cbn in *. rewrite Uk, Uc, Ut, Ui in *; cbn in *.
      repeat split; assumption.
    - repeat split. now exists []. }
  destruct HP as (Hi & Ht & Hk & Hc & Hq). repeat split; try assumption.
  rewrite Ht. now apply queue_is_rest_len.
Qed.

Lemma run_keeps_setup_witness :
  initial_urls first_page_failed = initial_urls (initial_state sample_input sample_config) /\
  total_urls first_page_failed = len (initial_urls first_page_failed) /\
  keyword first_page_failed = keyword (initial_state sample_input sample_config) /\
  current_url_index first_page_failed = 0 /\
  queue_is_rest first_page_failed /\
  len (urls_to_scrape first_page_failed) <= total_urls first_page_failed.
Proof.
  apply (run_keeps_setup failing_extractor sample_config sample_input 3
           Node.scrape_manager first_page_failed).
  reflexivity.
Defined.

(** X9.  A finding ends the run: when the [scraper] call at hand reports
    [is_information_found = True], the run is at [END] two turns later
    and stays there, with the flag set and the rest of the queue left
    unscraped in the state. *)
Theorem finding_ends_run (run : SmartScraperGraph) (config : RunnableConfig)
  (state : OverallState) (update : Update.t) (fuel : nat) :
  scraper run state config = Ok update ->
  Update.is_information_found update = Some true ->
  steps run config (2 + fuel) (Node.scraper, state)
    = Ok (Node.END, apply_update state update) /\
  is_information_found (apply_update state update) = true.
Proof.
  intros Hs Hf.
  assert (Hfound : is_information_found (apply_update state update) = true).
  { rewrite apply_update_found, Hf. apply orb_true_r. }
  split; [|exact Hfound].
  change (2 + fuel)%nat with (S (S fuel)).
  rewrite steps_S, step_scraper, Hs. cbn [bind Node.eqb].
  rewrite steps_S, step_evaluate, Hfound. reflexivity.
Qed.

Lemma finding_ends_run_witness :
  steps (constant_extractor relevant_answer) sample_config (2 + 5) (Node.scraper, sample_state)
    = Ok (Node.END,
          apply_update sample_state (scraped "a.example" ["b.example"] relevant_answer true)) /\
  is_information_found
    (apply_update sample_state (scraped "a.example" ["b.example"] relevant_answer true)) = true.
Proof.
  apply (finding_ends_run (constant_extractor relevant_answer) sample_config sample_state
           (scraped "a.example" ["b.example"] relevant_answer true) 5); reflexivity.
Defined.

(** X10.  The state names the first URL for good: from the second turn
    on, [extracted_from_url] is the first of [initial_urls], whatever is
    merged later, since [first_non_null] keeps the first write. *)
Theorem first_url_sticks (run : SmartScraperGraph) (config : RunnableConfig)
  (input : InputState.t) (fuel : nat) (n : Node.t) (state : OverallState) :
  run_graph run config input (2 + fuel) = Ok (n, state) ->
  exists url rest,
    initial_urls (initial_state input config) = url :: rest /\
    extracted_from_url state = Some url.
Proof.
  rewrite run_graph_shape. set (s0 := initial_state input config).
  destruct (scraper run s0 config) as [update|e] eqn:Hs; cbn [bind]; [|discriminate].
  intros H. exists default_url, []. split; [reflexivity|].
  assert (Hu : extracted_from_url (apply_update s0 update) = Some default_url).
  { unfold apply_update; cbn.
    now rewrite (scraper_names_head run s0 config default_url [] update eq_refl Hs). }
  destruct fuel; injection H as _ <-; exact Hu.
Qed.

Lemma first_url_sticks_witness :
  exists url rest,
    initial_urls (initial_state sample_input sample_config) = url :: rest /\
    extracted_from_url first_page_empty = Some url.
Proof.
  apply (first_url_sticks second_finds sample_config sample_input 4 Node.scrape_manager).
  reflexivity.
Defined.

Lemma steps_stuck (run : SmartScraperGraph) (config : RunnableConfig) (kw : string)
  (fuel : nat) (n : Node.t) (state : OverallState) :
  never_finds run config kw ->
  stuck kw state -> n <> Node.END ->
  exists n' state',
    steps run config fuel (n, state) = Ok (n', state') /\ stuck kw state' /\ n' <> Node.END.
Proof.
  intros Hrun. revert n state.
  induction fuel as [|fuel IH]; intros n state Hst Hn.
  - now exists n, state.
  - rewrite steps_S.
    destruct (step_stuck run config kw n state Hrun Hst Hn) as (n1 & s1 & Hstep & Hst1 & Hn1).
    rewrite Hstep. cbn [bind]. destruct (Node.eqb n Node.evaluate).
    + now exists n1, s1.
    + now apply IH.
Qed.

(** C1, as the code has it.  When every call of [scraper] reports
    [is_information_found = False], the run is at a node other than
    [END] at every turn.  It stops after its one batch (the turns of
    [scrape_manager], [scraper] and [evaluate]), stopped by
    [interrupt_after]; but on the state it stops with, where an API key
    means the queue is used up, [should_continue_scraping] still answers
    [continue_scraping], because [current_url_index] is [0] as at the
    start and so below [total_urls]: what is left pending is
    [scrape_manager], and [END] is not reached. *)
Theorem exhaustion_never_reaches_end (run : SmartScraperGraph) (config : RunnableConfig)
  (input : InputState.t) (fuel : nat) :
  never_finds run config (keyword (initial_state input config)) ->
  exists n state,
    run_graph run config input fuel = Ok (n, state) /\
    n <> Node.END /\
    current_url_index state = 0 /\
    0 < total_urls state /\
    is_information_found state = false /\
    ((3 <= fuel)%nat ->
       n = Node.scrape_manager /\
       run_graph run config input fuel = run_graph run config input 3 /\
       should_continue_scraping state = "continue_scraping" /\
       (key_of config <> EmptyString -> urls_to_scrape state = [])).
Proof.
  intros Hrun. set (s0 := initial_state input config) in *.
  destruct (steps_stuck run config (keyword s0) fuel Node.scrape_manager s0 Hrun
              (initial_state_stuck input config)) as (n & state & Hsteps & Hst & Hn);
    [discriminate|].
  exists n, state. split; [exact Hsteps|]. split; [exact Hn|].
  split; [apply (stuck_index Hst)|]. split; [apply (stuck_total Hst)|].
  split; [apply (stuck_flag Hst)|].
  intros Hfuel. destruct fuel as [|[|[|fuel]]]; try lia.
  change (run_graph run config input (S (S (S fuel))) = Ok (n, state)) in Hsteps.
  change (S (S (S fuel))) with (2 + S fuel)%nat in *.
  rewrite run_graph_shape in *. fold s0 in Hsteps. fold s0.
  change (3%nat) with (2 + 1)%nat. rewrite run_graph_shape. fold s0.
  destruct (scraper run s0 config) as [update|e] eqn:Hs; cbn [bind] in *; [|discriminate].
  assert (Hstate : apply_update s0 update = state) by congruence. subst state.
  assert (Hnode : (if is_information_found (apply_update s0 update)
                   then Node.END else Node.scrape_manager) = n) by congruence.
  rewrite (stuck_flag Hst) in Hnode.
  split; [now symmetry|]. split; [reflexivity|]. split.
  - unfold should_continue_scraping. rewrite (stuck_flag Hst), (stuck_index Hst).
    destruct (Z.ltb_spec 0 (total_urls (apply_update s0 update))) as [_|Hle];
      [reflexivity | pose proof (stuck_total Hst); lia].
  - intros Hkey.
    destruct (scraper_returns_scraped run s0 config default_url [] update eq_refl Hkey Hs)
      as (data & found & ->).
    reflexivity.
Qed.

Lemma failing_extractor_never_finds (config : RunnableConfig) (kw : string) :
  never_finds failing_extractor config kw.
Proof.
  intros state _. unfold scraper.
  destruct (urls_to_scrape state) as [|url rest]; [eexists; split; reflexivity|].
  destruct (negb (str_truthy (openai_api_key (settings (configurable config)))));
    eexists; split; reflexivity.
Qed.

Lemma exhaustion_never_reaches_end_witness :
  exists n state,
    run_graph failing_extractor sample_config one_url_input 1000 = Ok (n, state) /\
    n <> Node.END /\
    current_url_index state = 0 /\
    0 < total_urls state /\
    is_information_found state = false /\
    ((3 <= 1000)%nat ->
       n = Node.scrape_manager /\
       run_graph failing_extractor sample_config one_url_input 1000
         = run_graph failing_extractor sample_config one_url_input 3 /\
       should_continue_scraping state = "continue_scraping" /\
       (key_of sample_config <> EmptyString -> urls_to_scrape state = [])).
Proof.
  apply (exhaustion_never_reaches_end failing_extractor sample_config one_url_input 1000).
  apply failing_extractor_never_finds.
Defined.

(** The same run, turn by turn: the caller's URL is not in the state,
    the default URL is taken, and after [evaluate] the run stands still
    with [scrape_manager] pending and nothing left in the queue. *)
Example exhausted_run_stops :
  map (fun fuel =>
         match run_graph failing_extractor sample_config one_url_input fuel with
         | Ok (n, state) => Some (n, urls_to_scrape state, extracted_from_url state)
         | Raise _ => None
         end) [0; 1; 2; 3; 4; 25]%nat
  = [Some (Node.scrape_manager, [default_url], None);
     Some (Node.scraper, [default_url], None);
     Some (Node.evaluate, [], Some default_url);
     Some (Node.scrape_manager, [], Some default_url);
     Some (Node.scrape_manager, [], Some default_url);
     Some (Node.scrape_manager, [], Some default_url)].
Proof. reflexivity. Qed.

(** With a finding the same graph does stop at [END]: the page answers,
    and the run is at [END] after three turns. *)
Example found_run_ends :
  reached_end (run_graph (constant_extractor relevant_answer) sample_config sample_input 3) = true.
Proof. reflexivity. Qed.

Lemma scraper_without_key (run : SmartScraperGraph) (state : OverallState)
  (config : RunnableConfig) :
  key_of config = EmptyString ->
  exists update,
    scraper run state config = Ok update /\
    Update.is_information_found update = Some false /\
    (urls_to_scrape state <> [] ->
       Update.urls_to_scrape update = None /\ Update.extracted_info update = Some None) /\
    forall run', scraper run' state config = Ok update.
Proof.
  intros Hkey. unfold scraper. fold (key_of config). rewrite Hkey. cbn [str_truthy negb].
  destruct (urls_to_scrape state) as [|url rest]; eexists;
    (split; [reflexivity|]); (split; [reflexivity|]); split; try reflexivity.
  - congruence.
  - intros _. split; reflexivity.
Qed.

Lemma steps_without_key (run run' : SmartScraperGraph) (config : RunnableConfig)
  (fuel : nat) (at_ : Node.t * OverallState) :
  key_of config = EmptyString ->
  steps run config fuel at_ = steps run' config fuel at_.
Proof.
  intros Hkey. revert at_. induction fuel as [|fuel IH]; intros [n state].
  - reflexivity.
  - rewrite !steps_S.
    assert (E : step run config (n, state) = step run' config (n, state)).
    { destruct n; try reflexivity. rewrite !step_scraper.
      destruct (scraper_without_key run state config Hkey) as (u & Hu & _ & _ & Hall).
      now rewrite Hu, (Hall run'). }
    rewrite E. destruct (step run' config (n, state)); cbn [bind]; [|reflexivity].
    destruct (Node.eqb n Node.evaluate); [reflexivity | apply IH].
Qed.

(** X11.  With an empty API key the extractor has no part in the run:
    any two extractors give the same run, nothing is ever taken from the
    queue, no record is stored, and the run never comes to [END]. *)
Theorem run_without_key (run run' : SmartScraperGraph) (config : RunnableConfig)
  (input : InputState.t) (fuel : nat) :
  key_of config = EmptyString ->
  run_graph run config input fuel = run_graph run' config input fuel /\
  exists n state,
    run_graph run config input fuel = Ok (n, state) /\
    n <> Node.END /\
    urls_to_scrape state = initial_urls state /\
    extracted_info state = None /\
    is_information_found state = false.
Proof.
  intros Hkey. split; [now apply steps_without_key|].
  unfold run_graph, start. set (s0 := initial_state input config).
  assert (Hnf : never_finds run config (keyword s0)).
  { intros s _. destruct (scraper_without_key run s config Hkey) as (u & Hu & Hf & _).
    now exists u. }
  destruct (steps_stuck run config (keyword s0) fuel Node.scrape_manager s0 Hnf
              (initial_state_stuck input config)) as (n & s & Hsteps & Hst & Hn);
    [discriminate|].
  exists n, s. split; [exact Hsteps|]. split; [exact Hn|].
  assert (HP : urls_to_scrape s = initial_urls s /\ urls_to_scrape s <> [] /\
               extracted_info s = None).
  { refine (steps_keep
              (fun s => urls_to_scrape s = initial_urls s /\ urls_to_scrape s <> [] /\
                        extracted_info s = None)
              run config _ fuel Node.scrape_manager s0 n s _ Hsteps).
    - intros st u (Hq & Hne & Hinfo) Hu.
      destruct (scraper_without_key run st config Hkey) as (u' & Hu' & _ & Hw & _).
      assert (u' = u) by congruence. subst u'.
      destruct (Hw Hne) as (Uq & Uinfo).
      destruct (scraper_queue run st config u Hu) as (Ui & _).
      unfold apply_update; cbn. rewrite Uq, Uinfo, Ui, Hinfo; cbn. repeat split; assumption.
    - split; [reflexivity|]. split; [discriminate | reflexivity]. }
  destruct HP as (Hq & _ & Hinfo). split; [exact Hq|]. split; [exact Hinfo|].
  apply (stuck_flag Hst).
Qed.

Lemma run_without_key_witness :
  run_graph failing_extractor keyless_config sample_input 30
    = run_graph (constant_extractor relevant_answer) keyless_config sample_input 30 /\
  exists n state,
    run_graph failing_extractor keyless_config sample_input 30 = Ok (n, state) /\
    n <> Node.END /\
    urls_to_scrape state = initial_urls state /\
    extracted_info state = None /\
    is_information_found state = false.
Proof.
  apply (run_without_key failing_extractor (constant_extractor relevant_answer)
           keyless_config sample_input 30).
  reflexivity.
Defined.



(** ** The relevance test and the text of the record *)

Lemma append_assoc3 (a b c : string) : (a ++ b) ++ c = a ++ b ++ c.
Proof. induction a as [|x a IH]; cbn; [reflexivity | now rewrite IH]. Qed.

Lemma map_chars_app (f : ascii -> ascii) (a b : string) :
  map_chars f (a ++ b) = map_chars f a ++ map_chars f b.
Proof. induction a as [|x a IH]; cbn; [reflexivity | now rewrite IH]. Qed.

Lemma map_chars_app_inv (f : ascii -> ascii) (s a b : string) :
  map_chars f s = a ++ b ->
  exists sa sb, s = sa ++ sb /\ map_chars f sa = a /\ map_chars f sb = b.
Proof.
  revert s. induction a as [|x a IH]; intros s H; cbn in H.
  - now exists EmptyString, s.
  - destruct s as [|c s]; cbn in H; [discriminate|]. injection H as Hc H.
    destruct (IH s H) as (sa & sb & -> & Ha & Hb).
    exists (String c sa), sb. cbn. now rewrite Hc, Ha.
Qed.

Lemma repr_chars_app (q : ascii) (a b : string) :
  repr_chars q (a ++ b) = repr_chars q a ++ repr_chars q b.
Proof.
  induction a as [|x a IH]; cbn; [reflexivity|]. now rewrite IH, append_assoc3.
Qed.

Lemma occurs_in_refl (t : string) : occurs_in t t.
Proof.
  exists EmptyString, EmptyString. cbn. induction t as [|c t IH]; cbn; congruence.
Qed.

Lemma occurs_in_app (t a b c : string) : occurs_in t b -> occurs_in t (a ++ b ++ c).
Proof.
  intros (x & y & ->). exists (a ++ x), (y ++ c). now rewrite !append_assoc3.
Qed.

Lemma occurs_in_trans (a b c : string) : occurs_in a b -> occurs_in b c -> occurs_in a c.
Proof. intros Hab (x & y & ->). now apply occurs_in_app. Qed.

Lemma occurs_in_head (t b c : string) : occurs_in t b -> occurs_in t (b ++ c).
Proof. intros H. apply (occurs_in_app t EmptyString b c H). Qed.

Lemma occurs_in_lower (a b : string) : occurs_in a b -> occurs_in (lower a) (lower b).
Proof.
  intros (x & y & ->). exists (lower x), (lower y). unfold lower. now rewrite !map_chars_app.
Qed.

Lemma join_cons (sep p p' : string) (parts : list string) :
  join sep (p :: p' :: parts) = p ++ sep ++ join sep (p' :: parts).
Proof. reflexivity. Qed.

Lemma occurs_in_join (sep x : string) (parts : list string) :
  In x parts -> occurs_in x (join sep parts).
Proof.
  induction parts as [|p parts IH]; intros Hin; [destruct Hin|].
  destruct parts as [|p' parts].
  - destruct Hin as [-> | []]. apply occurs_in_refl.
  - rewrite join_cons. destruct Hin as [-> | Hin].
    + apply occurs_in_head, occurs_in_refl.
    + rewrite <- append_assoc3.
      apply (occurs_in_app x (p ++ sep) (join sep (p' :: parts)) EmptyString) in IH;
        [|exact Hin].
      destruct IH as (y & z & H). exists y, z. rewrite <- H.
      f_equal. clear. induction (join sep (p' :: parts)) as [|c r IHr]; cbn; congruence.
Qed.

Lemma plain_char_lower (c : ascii) :
  plain_char (lower_char c) = plain_char c.
Proof. destruct c as [[] [] [] [] [] [] [] []]; reflexivity. Qed.

Lemma plain_repr_char (c : ascii) :
  plain_char c = true ->
  repr_char squote c = String c EmptyString /\ repr_char dquote c = String c EmptyString.
Proof.
  destruct c as [[] [] [] [] [] [] [] []]; vm_compute; intros H;
    try discriminate H; split; reflexivity.
Qed.

Lemma plain_lower (s : string) : plain (lower s) = plain s.
Proof.
  unfold plain, lower. induction s as [|c s IH]; cbn; [reflexivity|].
  now rewrite plain_char_lower, IH.
Qed.

Lemma plain_repr_chars (q : ascii) (s : string) :
  q = squote \/ q = dquote -> plain s = true -> repr_chars q s = s.
Proof.
  intros Hq. unfold plain. induction s as [|c s IH]; cbn; [reflexivity|].
  intros H. apply andb_true_iff in H. destruct H as [Hc Hs].
  destruct (plain_repr_char c Hc) as [H1 H2].
  destruct Hq as [-> | ->]; [rewrite H1 | rewrite H2]; cbn [append]; now rewrite (IH Hs).
Qed.

(** A plain text found in a string, letter case apart, is found in the
    lower-cased [repr] of the string. *)
Lemma occurs_in_repr_str (t s : string) :
  plain t = true -> occurs_in t (lower s) -> occurs_in t (lower (repr_str s)).
Proof.
  intros Ht (x & y & H). unfold lower in H.
  destruct (map_chars_app_inv lower_char s x (t ++ y) H) as (sx & s' & -> & Hx & H').
  destruct (map_chars_app_inv lower_char s' t y H') as (st & sy & -> & Hst & Hy).
  assert (Hplain : plain st = true).
  { rewrite <- plain_lower. unfold lower. now rewrite Hst. }
  unfold repr_str.
  set (q := if mem_char squote (sx ++ st ++ sy) && negb (mem_char dquote (sx ++ st ++ sy))
            then dquote else squote).
  assert (Hq : q = squote \/ q = dquote).
  { unfold q. destruct (_ && _); [now right | now left]. }
  rewrite !repr_chars_app, (plain_repr_chars q st Hq Hplain).
  unfold lower. cbn [map_chars]. rewrite !map_chars_app, Hst.
  exists (String (lower_char q) (map_chars lower_char (repr_chars q sx))).
  eexists. cbn. rewrite !append_assoc3. reflexivity.
Qed.

Lemma occurs_in_wrapped (t a b c : string) :
  occurs_in t (lower b) -> occurs_in t (lower (a ++ b ++ c)).
Proof.
  intros H. unfold lower. rewrite !map_chars_app. now apply occurs_in_app.
Qed.

Lemma occurs_in_lower_tail (t a b : string) :
  occurs_in t (lower b) -> occurs_in t (lower (a ++ b)).
Proof.
  intros (x & y & H). exists (lower a ++ x), y. unfold lower in *.
  now rewrite map_chars_app, H, append_assoc3.
Qed.

Lemma holds_text_repr (t : string) (v : value) :
  plain t = true -> holds_text t v -> occurs_in t (lower (repr v)).
Proof.
  intros Ht H. induction H as [s Hs | items x Hin Hx IH | items k x Hin Hx IH | items k x Hin Hk].
  - cbn [repr]. now apply occurs_in_repr_str.
  - cbn [repr]. apply occurs_in_wrapped.
    eapply occurs_in_trans; [exact IH|].
    apply occurs_in_lower, occurs_in_join. now apply in_map.
  - cbn [repr]. apply occurs_in_wrapped.
    eapply occurs_in_trans;
      [|apply occurs_in_lower, occurs_in_join;
        apply (in_map (fun kv => repr_str (fst kv) ++ ": " ++ repr (snd kv)) _ _ Hin)].
    cbn [fst snd]. now apply occurs_in_lower_tail, occurs_in_lower_tail.
  - cbn [repr]. apply occurs_in_wrapped.
    eapply occurs_in_trans;
      [|apply occurs_in_lower, occurs_in_join;
        apply (in_map (fun kv => repr_str (fst kv) ++ ": " ++ repr (snd kv)) _ _ Hin)].
    cbn [fst snd]. unfold lower. rewrite map_chars_app. apply occurs_in_head.
    now apply occurs_in_repr_str.
Qed.

Lemma record_holds_summary (t : string) (record : dict) :
  plain t = true -> record_holds t record -> occurs_in t (summary_of record).
Proof.
  intros Ht (k & x & Hin & Hx). unfold summary_of, str_dict_values.
  apply occurs_in_wrapped.
  eapply occurs_in_trans; [exact (holds_text_repr t x Ht Hx)|].
  apply occurs_in_lower, occurs_in_join.
  apply in_map. unfold values. apply (in_map snd _ _ Hin).
Qed.

(** X13.  A denial anywhere vetoes the finding: if some value of the
    record holds ["not mentioned"] or ["not relevant"], in any letter
    case and at any depth (a string, an item of a list, a value or a key
    of a nested dict), the test fails for every keyword, also one the
    record is full of. *)
Theorem denial_in_record_vetoes (keyword : string) (record : dict) :
  record_holds "not mentioned" record \/ record_holds "not relevant" record ->
  relevant keyword record = false.
Proof.
  intros H. unfold relevant.
  assert (Hc : contains "not mentioned" (summary_of record) = true \/
               contains "not relevant" (summary_of record) = true).
  { destruct H as [H | H]; [left | right];
      apply contains_iff, record_holds_summary; (reflexivity || assumption). }
  destruct Hc as [-> | ->]; cbn [negb]; [apply andb_false_iff; left | ];
    apply andb_false_r.
Qed.

Lemma denial_in_record_vetoes_witness : relevant "tokens" nested_answer = false.
Proof.
  apply (denial_in_record_vetoes "tokens" nested_answer). left.
  exists "summary", (VList [VStr "Tokens"; VDict [("note", VStr "Foo is Not Mentioned")]]).
  split; [now left|].
  apply (holds_item "not mentioned" _ (VDict [("note", VStr "Foo is Not Mentioned")]));
    [right; now left|].
  apply (holds_value "not mentioned" _ "note" (VStr "Foo is Not Mentioned")); [now left|].
  apply holds_str, contains_iff. reflexivity.
Defined.

(** X14.  A keyword of plain characters (printable, no quote, no
    backslash) that some value of the record holds, in any letter case
    and at any depth, is found, provided the text of the record has
    neither denial phrase. *)
Theorem keyword_in_record_is_found (keyword : string) (record : dict) :
  plain keyword = true ->
  record_holds (lower keyword) record ->
  ~ occurs_in "not mentioned" (summary_of record) ->
  ~ occurs_in "not relevant" (summary_of record) ->
  relevant keyword record = true.
Proof.
  intros Hp Hk H1 H2. unfold relevant.
  apply contains_false_iff in H1, H2. rewrite H1, H2. cbn [negb]. rewrite !andb_true_r.
  apply contains_iff, record_holds_summary; [|exact Hk]. now rewrite plain_lower.
Qed.

Lemma keyword_in_record_is_found_witness : relevant default_keyword
  [("answer", VList [VStr "See HOW TO TRACK TOKEN USAGE FOR LLMS in the docs."])] = true.
Proof.
  apply (keyword_in_record_is_found default_keyword
           [("answer", VList [VStr "See HOW TO TRACK TOKEN USAGE FOR LLMS in the docs."])]).
  - reflexivity.
  - exists "answer", (VList [VStr "See HOW TO TRACK TOKEN USAGE FOR LLMS in the docs."]).
    split; [now left|].
    apply (holds_item _ _ (VStr "See HOW TO TRACK TOKEN USAGE FOR LLMS in the docs."));
      [now left|].
    apply holds_str, contains_iff. reflexivity.
  - apply contains_false_iff. reflexivity.
  - apply contains_false_iff. reflexivity.
Defined.

Lemma values_rename_keys (f : string -> string) (record : dict) :
  values (rename_keys f record) = values record.
Proof.
  unfold values, rename_keys. rewrite map_map. apply map_ext. reflexivity.
Qed.

Lemma summary_starts (record : dict) :
  exists rest, summary_of record = "dict_values([" ++ rest.
Proof.
  unfold summary_of, str_dict_values, lower. rewrite map_chars_app. eexists. reflexivity.
Qed.

(** X15.  The test reads [str(result.values())]: the keys of the record
    play no part, so renaming them changes nothing, and the text
    ["dict_values(["] that Python puts around the values counts as
    content, so a keyword found in it passes on any record free of the
    denial phrases. *)
Theorem summary_is_values_view (keyword : string) (record : dict) :
  (forall f, relevant keyword (rename_keys f record) = relevant keyword record) /\
  (occurs_in (lower keyword) "dict_values([" ->
   ~ occurs_in "not mentioned" (summary_of record) ->
   ~ occurs_in "not relevant" (summary_of record) ->
   relevant keyword record = true).
Proof.
  split.
  - intros f. unfold relevant, summary_of. now rewrite values_rename_keys.
  - intros Hk H1 H2. unfold relevant.
    apply contains_false_iff in H1, H2. rewrite H1, H2. cbn [negb]. rewrite !andb_true_r.
    apply contains_iff. destruct (summary_starts record) as [rest ->].
    now apply occurs_in_head.
Qed.

Lemma summary_is_values_view_witness :
  relevant "Values" [("summary", VStr "Nothing of the kind.")] = true.
Proof.
  apply (proj2 (summary_is_values_view "Values" [("summary", VStr "Nothing of the kind.")])).
  - apply contains_iff. reflexivity.
  - apply contains_false_iff. reflexivity.
  - apply contains_false_iff. reflexivity.
Defined.

Lemma lower_char_idem (c : ascii) : lower_char (lower_char c) = lower_char c.
Proof. destruct c as [[] [] [] [] [] [] [] []]; reflexivity. Qed.

Lemma lower_idem (s : string) : lower (lower s) = lower s.
Proof.
  unfold lower. induction s as [|c s IH]; cbn; [reflexivity|].
  now rewrite lower_char_idem, IH.
Qed.

(** X16.  The letter case of the keyword plays no part: a keyword and
    its lower case get the same verdict on every record, and so do any
    two keywords that differ in case only. *)
Theorem keyword_case_is_ignored (keyword : string) (record : dict) :
  relevant (lower keyword) record = relevant keyword record /\
  (forall keyword', lower keyword' = lower keyword ->
     relevant keyword' record = relevant keyword record).
Proof.
  split.
  - unfold relevant. now rewrite lower_idem.
  - intros keyword' H. unfold relevant. now rewrite H.
Qed.

Lemma keyword_case_is_ignored_witness :
  relevant "FOO" relevant_answer = relevant "foo" relevant_answer.
Proof.
  apply (proj2 (keyword_case_is_ignored "foo" relevant_answer) "FOO"). reflexivity.
Defined.

(** ** [main] *)

Lemma up_to_end_app (a b : list item) :
  up_to_end (a ++ b) = if existsb is_end a then up_to_end a else (a ++ up_to_end b)%list.
Proof.
  induction a as [|[key [|fields [|]]] a IH]; cbn; try reflexivity;
    rewrite IH; now destruct (existsb is_end a).
Qed.

Lemma up_to_end_none (items : list item) :
  existsb is_end items = false -> up_to_end items = items.
Proof.
  induction items as [|[key [|fields [|]]] items IH]; cbn; intros H;
    try reflexivity; try discriminate; now rewrite (IH H).
Qed.

Lemma items_loop_fold (items : event) (st : loop_state) :
  tracker (fst (items_loop items st)) = fold_left track (up_to_end items) (tracker st) /\
  (at_end (final_state st) = false ->
   at_end (final_state (fst (items_loop items st))) = existsb is_end items).
Proof.
  revert st. induction items as [|[key [|fields [|]]] items IH]; intros st.
  - split; [reflexivity | intros H; exact H].
  - cbn [items_loop up_to_end fold_left existsb is_end orb].
    destruct (IH {| tracker := track (tracker st) (key, NotADict);
                    final_state := final_state st |}) as [H1 H2].
    split; [exact H1 | intros H; now apply H2].
  - split; reflexivity.
  - cbn [items_loop up_to_end fold_left existsb is_end orb].
    destruct (IH {| tracker := track (tracker st) (key, ADict fields false);
                    final_state := Some (fields, false) |}) as [H1 H2].
    split; [exact H1 | intros _; apply H2; cbn; apply andb_false_r].
Qed.

Lemma events_loop_fold (events : list event) (st : loop_state) :
  at_end (final_state st) = false ->
  tracker (events_loop events st) = fold_left track (up_to_end (concat events)) (tracker st).
Proof.
  revert st. induction events as [|ev events IH]; intros st Hst; [reflexivity|].
  cbn [events_loop concat]. rewrite up_to_end_app.
  destruct (items_loop_fold ev st) as [Ht He]. specialize (He Hst). rewrite He.
  destruct (existsb is_end ev) eqn:E.
  - exact Ht.
  - rewrite (IH _ He), Ht, fold_left_app, (up_to_end_none ev E). reflexivity.
Qed.

Lemma fold_track_found (items : list item) (t : Tracker.t) :
  Tracker.found_information (fold_left track items t)
  = Tracker.found_information t || existsb is_hit items.
Proof.
  revert t. induction items as [|[key [|fields e]] items IH]; intros t;
    cbn [fold_left existsb].
  - now rewrite orb_false_r.
  - rewrite IH. reflexivity.
  - rewrite IH. cbn [track is_hit].
    destruct (String.eqb key "scraper"); cbn [andb orb]; [|reflexivity].
    destruct (Update.is_information_found fields) as [[|]|]; cbn [orb];
      try reflexivity.
    cbn. now rewrite orb_true_r.
Qed.

Lemma fold_track_misses (items : list item) (t : Tracker.t) :
  existsb is_hit items = false -> fold_left track items t = t.
Proof.
  revert t. induction items as [|[key [|fields e]] items IH]; intros t; cbn [fold_left existsb];
    [reflexivity|apply IH|].
  intros H. apply orb_false_iff in H. destruct H as [Hh Hr]. rewrite (IH _ Hr).
  cbn [track is_hit] in *. destruct (String.eqb key "scraper"); [|reflexivity].
  now destruct (Update.is_information_found fields) as [[|]|].
Qed.

Lemma fold_track_consistent (items : list item) (t : Tracker.t) :
  (Tracker.found_information t = false -> Tracker.extracted_info t = None) ->
  Tracker.found_information (fold_left track items t) = false ->
  Tracker.extracted_info (fold_left track items t) = None.
Proof.
  intros Ht Hf. rewrite fold_track_found in Hf. apply orb_false_iff in Hf.
  destruct Hf as [Hf Hm]. rewrite (fold_track_misses items t Hm). now apply Ht.
Qed.

(** X17.  The two loops of [main], breaks included, are one pass of
    [track] over the items up to the first that carries ["__end__"].
    The tracker ends with [found_information] set exactly when one of
    these items is a finding of the [scraper] node, and then holds the
    record and URL of the last such item. *)
Theorem main_tracks_last_hit (events : list event) :
  let seen := up_to_end (concat events) in
  let result := tracker (events_loop events loop_start) in
  result = fold_left track seen Tracker.initial /\
  Tracker.found_information result = existsb is_hit seen /\
  (forall before key fields e after,
     seen = (before ++ (key, ADict fields e) :: after)%list ->
     is_hit (key, ADict fields e) = true ->
     existsb is_hit after = false ->
     Tracker.extracted_info result = get (Update.extracted_info fields) /\
     Tracker.source_url result = get (Update.extracted_from_url fields)).
Proof.
  cbv zeta. rewrite (events_loop_fold events loop_start eq_refl).
  split; [reflexivity|]. split; [apply fold_track_found|].
  intros before key fields e after -> Hhit Hafter.
  rewrite fold_left_app. cbn [fold_left]. rewrite (fold_track_misses after _ Hafter).
  cbn [is_hit] in Hhit. apply andb_true_iff in Hhit. destruct Hhit as [Hk Hf].
  cbn [track]. rewrite Hk.
  destruct (Update.is_information_found fields) as [[|]|]; try discriminate.
  split; reflexivity.
Qed.

Lemma main_tracks_last_hit_witness :
  Tracker.extracted_info (tracker (events_loop sample_events loop_start))
    = get (Update.extracted_info (scraped "b.example" [] relevant_answer true)) /\
  Tracker.source_url (tracker (events_loop sample_events loop_start))
    = get (Update.extracted_from_url (scraped "b.example" [] relevant_answer true)).
Proof.
  apply (proj2 (proj2 (main_tracks_last_hit sample_events))
           [miss_item "a.example"; ("evaluate", ADict (evaluate sample_state) false)]
           "scraper" (scraped "b.example" [] relevant_answer true) false [end_item]);
    reflexivity.
Defined.

(** X18.  What [main] reports: the line for a last attempt is never
    written, since the tracker has a record only together with a
    finding; the report opens with the found line exactly when the last
    finding seen carries a non-empty record, and with the not-found line
    otherwise, so also for a finding whose record is empty. *)
Theorem main_report_shape (stream : InputState.t -> RunnableConfig -> list event)
  (settings : Settings) (urls : urls_arg) (keyword : string) :
  let lines := main stream settings urls keyword in
  let result :=
    tracker (events_loop
               (stream (main_inputs urls keyword)
                  {| configurable := {| settings := settings |} |}) loop_start) in
  (forall source_url info, ~ In (LastAttemptLine source_url info) lines) /\
  (Tracker.found_information result && info_truthy (Tracker.extracted_info result) = true ->
     exists info,
       Tracker.extracted_info result = Some info /\
       lines = [FoundLine keyword; SourceLine (Tracker.source_url result); InfoLine info]) /\
  (Tracker.found_information result && info_truthy (Tracker.extracted_info result) = false ->
     lines = [NotFoundLine keyword] \/ lines = [NotFoundLine keyword; NoFinalStateLine]).
Proof.
  cbv zeta. unfold main.
  set (st := events_loop _ loop_start).
  assert (Hc : Tracker.found_information (tracker st) = false ->
               Tracker.extracted_info (tracker st) = None).
  { unfold st. rewrite (events_loop_fold _ loop_start eq_refl).
    apply fold_track_consistent. reflexivity. }
  unfold report.
  destruct (Tracker.found_information (tracker st)) eqn:Hf.
  - destruct (Tracker.extracted_info (tracker st)) as [[|kv more]|] eqn:Hi; cbn.
    + split; [|split]; [| discriminate |].
      * intros u i [H | H]; [discriminate|]. destruct (final_state st) as [d|]; cbn in H.
        -- destruct (dict_truthy d); cbn in H; [destruct H|]. destruct H as [H|[]]; discriminate.
        -- destruct H as [H|[]]; discriminate.
      * intros _. destruct (final_state st) as [d|]; [destruct (dict_truthy d)|]; auto.
    + split; [|split]; [| | discriminate].
      * intros u i [H | [H | [H | []]]]; discriminate.
      * intros _. now exists (kv :: more).
    + split; [|split]; [| discriminate |].
      * intros u i [H | H]; [discriminate|]. destruct (final_state st) as [d|]; cbn in H.
        -- destruct (dict_truthy d); cbn in H; [destruct H|]. destruct H as [H|[]]; discriminate.
        -- destruct H as [H|[]]; discriminate.
      * intros _. destruct (final_state st) as [d|]; [destruct (dict_truthy d)|]; auto.
  - rewrite (Hc eq_refl). cbn. split; [|split]; [| discriminate |].
    + intros u i [H | H]; [discriminate|]. destruct (final_state st) as [d|]; cbn in H.
      * destruct (dict_truthy d); cbn in H; [destruct H|]. destruct H as [H|[]]; discriminate.
      * destruct H as [H|[]]; discriminate.
    + intros _. destruct (final_state st) as [d|]; [destruct (dict_truthy d)|]; auto.
Qed.

Lemma main_report_shape_witness :
  exists info,
    Tracker.extracted_info (tracker (events_loop sample_events loop_start)) = Some info /\
    main (fun _ _ => sample_events) sample_settings (OneUrl "a.example") "foo"
      = [FoundLine "foo";
         SourceLine (Tracker.source_url (tracker (events_loop sample_events loop_start)));
         InfoLine info].
Proof.
  apply (proj1 (proj2 (main_report_shape (fun _ _ => sample_events) sample_settings
                         (OneUrl "a.example") "foo"))).
  reflexivity.
Defined.

(** X19.  The [urls] given to [main] never reach the graph: [urls] is
    no key of the state schema, so the state starts with the default URL
    as its one URL whatever the caller asked for, and two calls of
    [main] that differ in their URLs only make the same run.  The
    keyword does come through, and an empty one is replaced by the
    default keyword. *)
Theorem main_urls_never_reach_graph (urls urls' : urls_arg) (keyword_ : string)
  (run : SmartScraperGraph) (config : RunnableConfig) (fuel : nat) :
  let state := initial_state (main_inputs urls keyword_) config in
  initial_urls state = [default_url] /\
  urls_to_scrape state = [default_url] /\
  total_urls state = 1 /\
  (keyword_ = EmptyString -> keyword state = default_keyword) /\
  (keyword_ <> EmptyString -> keyword state = keyword_) /\
  run_graph run config (main_inputs urls keyword_) fuel
    = run_graph run config (main_inputs urls' keyword_) fuel.
Proof.
  cbv zeta. split; [reflexivity|]. split; [reflexivity|]. split; [reflexivity|].
  split; [|split].
  - intros ->. reflexivity.
  - intros Hne. destruct keyword_; [congruence | reflexivity].
  - reflexivity.
Qed.

Lemma main_urls_never_reach_graph_witness :
  keyword (initial_state (main_inputs (UrlList ["a.example"; "b.example"]) "foo") sample_config)
    = "foo" /\
  keyword (initial_state (main_inputs (OneUrl "a.example") EmptyString) sample_config)
    = default_keyword.
Proof.
  split.
  - apply (proj1 (proj2 (proj2 (proj2 (proj2
             (main_urls_never_reach_graph (UrlList ["a.example"; "b.example"])
                (OneUrl "c.example") "foo" failing_extractor sample_config 3)))))).
    discriminate.
  - apply (proj1 (proj2 (proj2 (proj2
             (main_urls_never_reach_graph (OneUrl "a.example") (UrlList [])
                EmptyString failing_extractor sample_config 3))))).
    reflexivity.
Defined.

(** ** How a run can fail, and what the state then holds *)

Lemma scraper_raise_inv (run : SmartScraperGraph) (state : OverallState)
  (config : RunnableConfig) (e : exn) :
  scraper run state config = Raise e ->
  exists class url rest,
    e = Exit class /\
    urls_to_scrape state = url :: rest /\
    key_of config <> EmptyString /\
    run (prompt_for (keyword state)) url (graph_config_for (key_of config))
      = Raise (Exit class).
Proof.
  unfold scraper. fold (key_of config).
  destruct (urls_to_scrape state) as [|url rest]; [discriminate|].
  destruct (key_of config) as [|c k] eqn:Hkey; cbn [str_truthy negb]; [discriminate|].
  destruct (run (prompt_for (keyword state)) url (graph_config_for (String c k)))
    as [answer|[class message|class]] eqn:Hrun; cbn [bind try_except].
  - destruct answer; discriminate.
  - discriminate.
  - intros [= <-]. exists class, url, rest. repeat split; congruence.
Qed.

Lemma scraper_raises_exit (run : SmartScraperGraph) (state : OverallState)
  (config : RunnableConfig) (url : string) (rest : list string) (class : string) :
  urls_to_scrape state = url :: rest ->
  key_of config <> EmptyString ->
  run (prompt_for (keyword state)) url (graph_config_for (key_of config))
    = Raise (Exit class) ->
  scraper run state config = Raise (Exit class).
Proof.
  intros Hq Hkey Hrun.
  rewrite (scraper_calls_extractor run state config url rest Hq Hkey), Hrun. reflexivity.
Qed.

(** X20.  A run fails in one way only, at one place: its one call of the
    extractor, made with an API key on the default URL for the run's
    keyword, raises an exit request (an exception that is no
    [Exception]); the run then fails with that exception from the second
    turn on.  No error of the extractor, no routing label and no merge
    makes a run fail. *)
Theorem run_fails_only_by_exit (run : SmartScraperGraph) (config : RunnableConfig)
  (input : InputState.t) (fuel : nat) (e : exn) :
  run_graph run config input fuel = Raise e <->
  ((2 <= fuel)%nat /\
   key_of config <> EmptyString /\
   (exists class, e = Exit class) /\
   run (prompt_for (keyword (initial_state input config))) default_url
       (graph_config_for (key_of config)) = Raise e).
Proof.
  set (s0 := initial_state input config). split.
  - intros H. destruct fuel as [|[|fuel]].
    + discriminate H.
    + unfold run_graph, start in H. rewrite steps_S, step_scrape_manager in H.
      discriminate H.
    + change (S (S fuel)) with (2 + fuel)%nat in H. rewrite run_graph_shape in H. fold s0 in H.
      destruct (scraper run s0 config) as [update|e'] eqn:Hs; cbn [bind] in H.
      * destruct fuel; discriminate H.
      * injection H as ->.
        destruct (scraper_raise_inv run s0 config e Hs)
          as (class & url & rest & -> & Hq & Hkey & Hrun).
        injection Hq as <- _.
        split; [lia|]. split; [exact Hkey|]. split; [now exists class | exact Hrun].
  - intros (Hfuel & Hkey & [class ->] & Hrun).
    destruct fuel as [|[|fuel]]; try lia.
    change (S (S fuel)) with (2 + fuel)%nat. rewrite run_graph_shape. fold s0.
    now rewrite (scraper_raises_exit run s0 config default_url [] class eq_refl Hkey Hrun).
Qed.

Lemma run_fails_only_by_exit_witness :
  run_graph (fun _ _ _ => Raise (Exit "SystemExit")) sample_config sample_input 2
    = Raise (Exit "SystemExit").
Proof.
  apply (proj2 (run_fails_only_by_exit (fun _ _ _ => Raise (Exit "SystemExit"))
                  sample_config sample_input 2 (Exit "SystemExit"))).
  split; [apply le_n|]. split; [discriminate|]. split; [now exists "SystemExit" | reflexivity].
Defined.

(** X21.  With an API key, [extracted_info] and [extracted_from_url] go
    together at every point of every run: before the first page both are
    unset, and from the second turn on they are the record and the URL
    of the first page, for good. *)
Theorem first_page_sticks (run : SmartScraperGraph) (config : RunnableConfig)
  (input : InputState.t) (fuel : nat) (n : Node.t) (state : OverallState) :
  key_of config <> EmptyString ->
  run_graph run config input fuel = Ok (n, state) ->
  (extracted_info state = None /\ extracted_from_url state = None /\ (fuel < 2)%nat) \/
  (exists url rest data found,
     scraper run (initial_state input config) config = Ok (scraped url rest data found) /\
     extracted_info state = Some data /\
     extracted_from_url state = Some url /\
     (2 <= fuel)%nat).
Proof.
  intros Hkey. set (s0 := initial_state input config).
  destruct fuel as [|[|fuel]].
  - intros [= _ <-]. left. repeat split; lia.
  - unfold run_graph, start. rewrite steps_S, step_scrape_manager. cbn [bind Node.eqb steps].
    intros [= _ <-]. left. repeat split; lia.
  - change (S (S fuel)) with (2 + fuel)%nat. rewrite run_graph_shape. fold s0.
    destruct (scraper run s0 config) as [update|e] eqn:Hs; cbn [bind]; [|discriminate].
    destruct (scraper_returns_scraped run s0 config default_url [] update eq_refl Hkey Hs)
      as (data & found & ->).
    intros H. right. exists default_url, [], data, found. split; [reflexivity|].
    assert (Hstate : state = apply_update s0 (scraped default_url [] data found)).
    { destruct fuel; congruence. }
    subst state. repeat split. lia.
Qed.

Lemma first_page_sticks_witness :
  (extracted_info first_page_empty = None /\
   extracted_from_url first_page_empty = None /\ (6 < 2)%nat) \/
  (exists url rest data found,
     scraper second_finds (initial_state sample_input sample_config) sample_config
       = Ok (scraped url rest data found) /\
     extracted_info first_page_empty = Some data /\
     extracted_from_url first_page_empty = Some url /\
     (2 <= 6)%nat).
Proof.
  apply (first_page_sticks second_finds sample_config sample_input 6 Node.scrape_manager).
  - discriminate.
  - reflexivity.
Defined.

(** X22.  [initialize_state] is stable: started again from the URLs and
    the keyword of a state it made, it makes the same state, since
    neither is empty any more and no default comes in. *)
Theorem initialize_state_is_stable (input : InputState.t) (config config' : RunnableConfig) :
  let state := initialize_state input config in
  initialize_state {| InputState.urls := Some (UrlList (initial_urls state));
                      InputState.keyword := Some (keyword state) |} config'
  = state.
Proof.
  destruct input as [[[[|c u]|[|u us]]|] [[|d kw]|]]; reflexivity.
Qed.

(** ** Letter case in the record *)

Lemma value_ind_nested (P : value -> Prop) :
  P VNone -> (forall b, P (VBool b)) -> (forall z, P (VInt z)) -> (forall s, P (VStr s)) ->
  (forall items, Forall P items -> P (VList items)) ->
  (forall items, Forall (fun kv => P (snd kv)) items -> P (VDict items)) ->
  forall v, P v.
Proof.
  intros Hnone Hbool Hint Hstr Hlist Hdict. fix IH 1.
  intros [|b|z|s|items|items].
  - exact Hnone.
  - apply Hbool.
  - apply Hint.
  - apply Hstr.
  - apply Hlist. induction items as [|x items IHitems]; constructor; [apply IH | exact IHitems].
  - apply Hdict. induction items as [|[k x] items IHitems]; constructor;
      [apply IH | exact IHitems].
Qed.

Lemma lower_app (a b : string) : lower (a ++ b) = lower a ++ lower b.
Proof. apply map_chars_app. Qed.

Lemma lower_cons (c : ascii) (s : string) : lower (String c s) = String (lower_char c) (lower s).
Proof. reflexivity. Qed.

Lemma lower_join (sep : string) (parts : list string) :
  lower (join sep parts) = join (lower sep) (map lower parts).
Proof.
  induction parts as [|p [|p' parts] IH]; try reflexivity.
  rewrite join_cons. cbn [map]. rewrite join_cons, !lower_app. f_equal. f_equal. exact IH.
Qed.

Lemma mem_quote_lower (s : string) :
  mem_char squote (lower s) = mem_char squote s /\
  mem_char dquote (lower s) = mem_char dquote s.
Proof.
  induction s as [|c s [IH1 IH2]]; [split; reflexivity|].
  rewrite lower_cons. cbn [mem_char]. rewrite IH1, IH2.
  split; f_equal; destruct c as [[] [] [] [] [] [] [] []]; reflexivity.
Qed.

Lemma lower_repr_char (c : ascii) :
  lower (repr_char squote (lower_char c)) = lower (repr_char squote c) /\
  lower (repr_char dquote (lower_char c)) = lower (repr_char dquote c).
Proof. destruct c as [[] [] [] [] [] [] [] []]; split; reflexivity. Qed.

Lemma lower_repr_chars (q : ascii) (s : string) :
  q = squote \/ q = dquote ->
  lower (repr_chars q (lower s)) = lower (repr_chars q s).
Proof.
  intros Hq. induction s as [|c s IH]; [reflexivity|].
  rewrite lower_cons. cbn [repr_chars]. rewrite !lower_app, IH. f_equal.
  destruct (lower_repr_char c) as [H1 H2]. destruct Hq as [-> | ->]; assumption.
Qed.

Lemma lower_repr_str (s : string) : lower (repr_str (lower s)) = lower (repr_str s).
Proof.
  unfold repr_str. destruct (mem_quote_lower s) as [-> ->].
  set (q := if mem_char squote s && negb (mem_char dquote s) then dquote else squote).
  assert (Hq : q = squote \/ q = dquote).
  { unfold q. destruct (_ && _); [now right | now left]. }
  rewrite !lower_cons, !lower_app. f_equal. f_equal.
  apply (lower_repr_chars q s Hq).
Qed.

Lemma lower_repr_value (v : value) : lower (repr (lower_value v)) = lower (repr v).
Proof.
  induction v as [|b|z|s|items IH|items IH] using value_ind_nested; try reflexivity.
  - apply lower_repr_str.
  - cbn [lower_value repr]. rewrite !lower_app, !lower_join, !map_map. f_equal. f_equal.
    f_equal.
    induction IH as [|x items Hx _ IHitems]; cbn [map]; [reflexivity|]. now rewrite Hx, IHitems.
  - cbn [lower_value repr]. rewrite !lower_app, !lower_join, !map_map. f_equal. f_equal.
    f_equal.
    induction IH as [|[k x] items Hx _ IHitems]; cbn [map]; [reflexivity|].
    rewrite IHitems. f_equal. cbn [fst snd] in *.
    now rewrite !lower_app, lower_repr_str, Hx.
Qed.

(** X23.  The letter case of the record plays no part either: with every
    string of its values put in lower case (at any depth, keys of nested
    dicts included), the record has the same lower-cased text and gets
    the same verdict, for every keyword. *)
Theorem record_case_is_ignored (keyword : string) (record : dict) :
  summary_of (lower_values record) = summary_of record /\
  relevant keyword (lower_values record) = relevant keyword record.
Proof.
  assert (H : summary_of (lower_values record) = summary_of record).
  { unfold summary_of, str_dict_values, values, lower_values.
    rewrite !lower_app, !lower_join, !map_map. f_equal. f_equal. f_equal.
    apply map_ext. intros [k x]. cbn [fst snd]. apply lower_repr_value. }
  split; [exact H|]. unfold relevant. now rewrite H.
Qed.
